(** * PROS kernel, VEX GPS driver (src/devices/vdml_gps.c) and the SD-card
      C++ wrappers (src/devices/vdml_usd.cpp)

    A shallow embedding of the driver functions, over
    - a device registry with one descriptor per smart port and a claimed
      flag per descriptor (the part the claim macros of vdml/vdml.h and the
      functions of vdml/registry.h work on), and
    - the vendor SDK ([vexDeviceGps*] of v5_api.h), kept abstract: an
      interface over an opaque SDK state, with a log of the calls made.

    Doubles are only ever copied by this code, never computed with; they are
    binary64 values ([PrimFloat.float]).  Integers are [Z], with the width of
    the C type written out where the code computes with them. *)

From Stdlib Require Import ZArith Bool List Lia.
From Stdlib Require Import Floats.PrimFloat.
From stdpp Require Import base option gmap list.

Local Open Scope Z_scope.

(** ** Data *)

Definition double : Type := float.

(** [V5_DeviceT]: the SDK's opaque device pointer, [device->device_info]. *)
Definition V5_DeviceT : Type := Z.

(** [v5_device_e_t]: the device-type tag, a C enum. *)
Definition v5_device_e_t : Type := Z.

(** [uint32_t] arithmetic wraps modulo 2^32. *)
Definition wrap_u32 (z : Z) : Z := z mod 2 ^ 32.

(** [V5_DeviceGpsAttitude] (v5_api.h): the fields this file reads. *)
Record V5_DeviceGpsAttitude : Type := mkAttitude {
  pitch : double;
  roll : double;
  yaw : double;
  position_x : double;
  position_y : double
}.

(** [V5_DeviceGpsRaw] (v5_api.h): the fields this file reads. *)
Record V5_DeviceGpsRaw : Type := mkRaw {
  raw_x : double;
  raw_y : double;
  raw_z : double
}.

(** The public structs of pros/gps.h.  Rocq wants distinct projection names,
    so each C field [f] of struct [s] is [s_f] here. *)
Record gps_position_s_t : Type := mkPosition {
  position_s_x : double;
  position_s_y : double
}.

Record gps_status_s_t : Type := mkStatus {
  status_x : double;
  status_y : double;
  status_pitch : double;
  status_roll : double;
  status_yaw : double
}.

Record gps_orientation_s_t : Type := mkOrientation {
  orientation_pitch : double;
  orientation_roll : double;
  orientation_yaw : double
}.

Record gps_gyro_s_t : Type := mkGyro {
  gyro_x : double;
  gyro_y : double;
  gyro_z : double
}.

Record gps_accel_s_t : Type := mkAccel {
  accel_x : double;
  accel_y : double;
  accel_z : double
}.

(** Modelled from the spec: the registry entry of vdml/registry.h, which is
    not part of the sources at hand.  The spec's DeviceDescriptor is
    { port_index, device_type_tag, opaque_handle, claimed_flag }; the driver
    reads the handle as [device->device_info]. *)
Record v5_smart_device_s_t : Type := mkDevice {
  port_index : Z;
  device_type : v5_device_e_t;
  device_info : V5_DeviceT;
  claimed : bool
}.

Definition set_claimed (b : bool) (d : v5_smart_device_s_t) : v5_smart_device_s_t :=
  {| port_index := port_index d;
     device_type := device_type d;
     device_info := device_info d;
     claimed := b |}.

(** Constants of headers that are not part of the sources at hand
    (pros/error.h, vdml/vdml.h, pros/apix.h): taken as parameters. *)
Class ProsConsts : Type := {
  PROS_ERR : Z;
  PROS_ERR_F : double;
  PROS_SUCCESS : Z;
  NUM_V5_PORTS : Z;
  E_DEVICE_GPS : v5_device_e_t
}.

(** The vendor SDK, opaque to the driver: every entry point is a transition
    of an SDK state [V].  Out-parameters come back as results; for
    [vexDeviceGpsOriginGet] the caller's initial values of [*x] and [*y] are
    passed in, since the driver initialises them before the call. *)
Class VexDeviceGps (V : Type) : Type := {
  vexDeviceGpsOriginSet : V5_DeviceT -> double -> double -> V -> V;
  vexDeviceGpsInitialPositionSet : V5_DeviceT -> double -> double -> double -> V -> V;
  vexDeviceGpsOriginGet : V5_DeviceT -> double -> double -> V -> (double * double) * V;
  vexDeviceGpsDataRateSet : V5_DeviceT -> Z -> V -> V;
  vexDeviceGpsErrorGet : V5_DeviceT -> V -> double * V;
  vexDeviceGpsAttitudeGet : V5_DeviceT -> bool -> V -> V5_DeviceGpsAttitude * V;
  vexDeviceGpsDegreesGet : V5_DeviceT -> V -> double * V;
  vexDeviceGpsHeadingGet : V5_DeviceT -> V -> double * V;
  vexDeviceGpsRawGyroGet : V5_DeviceT -> V -> V5_DeviceGpsRaw * V;
  vexDeviceGpsRawAccelGet : V5_DeviceT -> V -> V5_DeviceGpsRaw * V
}.

(** One entry of the call log per SDK entry point, with the arguments the
    driver passed. *)
Inductive vex_call : Type :=
| CallOriginSet (h : V5_DeviceT) (x y : double)
| CallInitialPositionSet (h : V5_DeviceT) (x y heading : double)
| CallOriginGet (h : V5_DeviceT)
| CallDataRateSet (h : V5_DeviceT) (rate : Z)
| CallErrorGet (h : V5_DeviceT)
| CallAttitudeGet (h : V5_DeviceT) (flag : bool)
| CallDegreesGet (h : V5_DeviceT)
| CallHeadingGet (h : V5_DeviceT)
| CallRawGyroGet (h : V5_DeviceT)
| CallRawAccelGet (h : V5_DeviceT).

(** ** The registry and the port claim guard *)

Module Registry.
Section Registry.
Context `{ProsConsts}.

(** Modelled from the spec: the range check on a zero-based port index
    ("validate range, fails with OutOfRange if not"). *)
Definition validate_port (idx : Z) : bool :=
  (0 <=? idx) && (idx <? NUM_V5_PORTS).

(** Modelled from the spec: [lookup(port)], "fails with NotFound if port
    index is out of the valid range or no device has ever been registered
    there". *)
Definition lookup (idx : Z) (r : gmap Z v5_smart_device_s_t) : option v5_smart_device_s_t :=
  if validate_port idx then r !! idx else None.

(** Modelled from the spec: [register(port, type, handle)], "overwrites
    any prior descriptor for that port". *)
Definition register (idx : Z) (ty : v5_device_e_t) (h : V5_DeviceT)
    (r : gmap Z v5_smart_device_s_t) : gmap Z v5_smart_device_s_t :=
  if validate_port idx
  then <[idx := {| port_index := idx; device_type := ty; device_info := h; claimed := false |}]> r
  else r.

(** Modelled from the spec: the claimed flag of the descriptor at [idx];
    a slot without a descriptor has no claim on it. *)
Definition is_claimed (idx : Z) (r : gmap Z v5_smart_device_s_t) : bool :=
  match r !! idx with
  | Some d => claimed d
  | None => false
  end.
End Registry.
End Registry.

Module Guard.
(** The spec's error taxonomy for a claim. *)
Inductive claim_error : Type :=
| OutOfRange
| NotInitialized
| WrongDeviceType
| AlreadyClaimed.

Inductive claim_result : Type :=
| ClaimOk (device : v5_smart_device_s_t)
| ClaimErr (e : claim_error).

Section Guard.
Context `{ProsConsts}.

(** Modelled from the spec: [claim(port, expected_type)], "validate range,
    fails with OutOfRange if not; lookup descriptor, fails with
    NotInitialized/WrongDeviceType if missing or type mismatch; attempt
    exclusive lock, fails with AlreadyClaimed if another concurrent claim
    is outstanding; on success, returns a live handle usable until
    release".  The lock is a non-blocking try-lock on the claimed flag. *)
Definition claim (idx : Z) (ty : v5_device_e_t) (r : gmap Z v5_smart_device_s_t)
    : claim_result * gmap Z v5_smart_device_s_t :=
  if negb (Registry.validate_port idx) then (ClaimErr OutOfRange, r)
  else match Registry.lookup idx r with
       | None => (ClaimErr NotInitialized, r)
       | Some d =>
         if negb (device_type d =? ty) then (ClaimErr WrongDeviceType, r)
         else if claimed d then (ClaimErr AlreadyClaimed, r)
         else (ClaimOk (set_claimed true d), <[idx := set_claimed true d]> r)
       end.

(** Modelled from the spec: the lock half of [release(port, value)],
    "releases the exclusive lock unconditionally" (unlock-if-held). *)
Definition release (idx : Z) (r : gmap Z v5_smart_device_s_t) : gmap Z v5_smart_device_s_t :=
  alter (set_claimed false) idx r.
End Guard.
End Guard.

(** ** The driver's world and its monad *)

Section World.
Context {V : Type}.

(** Everything a driver call can read or change: the registry, the SDK's
    own state, and the log of SDK calls made so far (oldest first). *)
Record world : Type := mkWorld {
  registry : gmap Z v5_smart_device_s_t;
  vex : V;
  calls : list vex_call
}.

Definition set_registry (r : gmap Z v5_smart_device_s_t) (w : world) : world :=
  {| registry := r; vex := vex w; calls := calls w |}.

(** An SDK call: the SDK state moves and the call is logged. *)
Definition sdk_step (c : vex_call) (v : V) (w : world) : world :=
  {| registry := registry w; vex := v; calls := calls w ++ [c] |}.

(** State passing; [None] is a fault (a null [device] dereferenced). *)
Definition M (A : Type) : Type := world -> option (A * world).

Definition ret {A : Type} (a : A) : M A := fun w => Some (a, w).

Definition bind {A B : Type} (m : M A) (k : A -> M B) : M B :=
  fun w => match m w with
           | Some (a, w') => k a w'
           | None => None
           end.

Definition fault {A : Type} : M A := fun _ => None.
End World.

Arguments world V : clear implicits.
Arguments M V A : clear implicits.

Declare Scope drv_scope.
Delimit Scope drv_scope with drv.
Notation "x <- m ;; k" := (bind m (fun x => k))
  (at level 100, m at next level, k at level 200, right associativity) : drv_scope.
Notation "m ;;; k" := (bind m (fun _ => k))
  (at level 100, k at level 200, right associativity) : drv_scope.

Section Driver.
Context {V : Type} `{!VexDeviceGps V} `{!ProsConsts}.
Local Open Scope drv_scope.

(** *** The SDK entry points as driver actions *)

Definition VexOriginSet (h : V5_DeviceT) (x y : double) : M V unit :=
  fun w => Some (tt, sdk_step (CallOriginSet h x y) (vexDeviceGpsOriginSet h x y (vex w)) w).

Definition VexInitialPositionSet (h : V5_DeviceT) (x y heading : double) : M V unit :=
  fun w => Some (tt, sdk_step (CallInitialPositionSet h x y heading)
                              (vexDeviceGpsInitialPositionSet h x y heading (vex w)) w).

Definition VexOriginGet (h : V5_DeviceT) (x y : double) : M V (double * double) :=
  fun w => let (out, v) := vexDeviceGpsOriginGet h x y (vex w) in
           Some (out, sdk_step (CallOriginGet h) v w).

Definition VexDataRateSet (h : V5_DeviceT) (rate : Z) : M V unit :=
  fun w => Some (tt, sdk_step (CallDataRateSet h rate) (vexDeviceGpsDataRateSet h rate (vex w)) w).

Definition VexErrorGet (h : V5_DeviceT) : M V double :=
  fun w => let (out, v) := vexDeviceGpsErrorGet h (vex w) in
           Some (out, sdk_step (CallErrorGet h) v w).

Definition VexAttitudeGet (h : V5_DeviceT) (flag : bool) : M V V5_DeviceGpsAttitude :=
  fun w => let (out, v) := vexDeviceGpsAttitudeGet h flag (vex w) in
           Some (out, sdk_step (CallAttitudeGet h flag) v w).

Definition VexDegreesGet (h : V5_DeviceT) : M V double :=
  fun w => let (out, v) := vexDeviceGpsDegreesGet h (vex w) in
           Some (out, sdk_step (CallDegreesGet h) v w).

Definition VexHeadingGet (h : V5_DeviceT) : M V double :=
  fun w => let (out, v) := vexDeviceGpsHeadingGet h (vex w) in
           Some (out, sdk_step (CallHeadingGet h) v w).

Definition VexRawGyroGet (h : V5_DeviceT) : M V V5_DeviceGpsRaw :=
  fun w => let (out, v) := vexDeviceGpsRawGyroGet h (vex w) in
           Some (out, sdk_step (CallRawGyroGet h) v w).

Definition VexRawAccelGet (h : V5_DeviceT) : M V V5_DeviceGpsRaw :=
  fun w => let (out, v) := vexDeviceGpsRawAccelGet h (vex w) in
           Some (out, sdk_step (CallRawAccelGet h) v w).

(** *** The claim macros of vdml/vdml.h *)

(** The guard's [claim], run on the world's registry. *)
Definition guard_claim (idx : Z) (ty : v5_device_e_t) : M V Guard.claim_result :=
  fun w => let (res, r) := Guard.claim idx ty (registry w) in
           Some (res, set_registry r w).

(** Modelled from the spec: the claim macro behind [claim_port_i] and
    [claim_port_f], which vdml/vdml.h (not part of the sources at hand)
    defines.  "failure: designated error sentinel, caller propagates it
    directly as the whole function's return value"; on success the macro
    leaves [device] bound for the rest of the function body, which is the
    continuation [body] here. *)
Definition claim_port {A : Type} (error_code : A) (idx : Z) (ty : v5_device_e_t)
    (body : v5_smart_device_s_t -> M V A) : M V A :=
  res <- guard_claim idx ty ;;
  match res with
  | Guard.ClaimOk device => body device
  | Guard.ClaimErr _ => ret error_code
  end.

(** Modelled from the spec: the integer-returning variant. *)
Definition claim_port_i (idx : Z) (ty : v5_device_e_t)
    (body : v5_smart_device_s_t -> M V Z) : M V Z :=
  claim_port PROS_ERR idx ty body.

(** Modelled from the spec: the float-returning variant. *)
Definition claim_port_f (idx : Z) (ty : v5_device_e_t)
    (body : v5_smart_device_s_t -> M V double) : M V double :=
  claim_port PROS_ERR_F idx ty body.

(** Modelled from the spec: the boolean-try variant, "failure: false;
    success: true, and the handle becomes available for a subsequent
    explicit fetch". *)
Definition claim_port_try (idx : Z) (ty : v5_device_e_t) : M V bool :=
  res <- guard_claim idx ty ;;
  ret (match res with
       | Guard.ClaimOk _ => true
       | Guard.ClaimErr _ => false
       end).

(** Modelled from the spec: the explicit fetch, [registry_get_device] of
    vdml/registry.h; a null pointer is [None]. *)
Definition registry_get_device (idx : Z) : M V (option v5_smart_device_s_t) :=
  fun w => Some (Registry.lookup idx (registry w), w).

(** [device->device_info]; dereferencing a null [device] is a fault. *)
Definition deref_device_info (device : option v5_smart_device_s_t) : M V V5_DeviceT :=
  match device with
  | Some d => ret (device_info d)
  | None => fault
  end.

(** Modelled from the spec: [return_port(port, value)], "releases the
    exclusive lock unconditionally and returns/forwards value as the
    operation's result". *)
Definition return_port {A : Type} (idx : Z) (rtn : A) : M V A :=
  fun w => Some (rtn, set_registry (Guard.release idx (registry w)) w).
End Driver.

(** ** The GPS driver, src/devices/vdml_gps.c

    [port] is the one-based [uint8_t] of the public interface; [port - 1] is
    computed in [int], so port 0 gives index -1, outside every valid range. *)

Section Gps.
Context {V : Type} `{!VexDeviceGps V} `{!ProsConsts}.
Local Open Scope drv_scope.

Definition GPS_MINIMUM_DATA_RATE : Z := 5.

Definition GPS_STATUS_ERR_INIT : gps_status_s_t :=
  {| status_x := PROS_ERR_F; status_y := PROS_ERR_F; status_roll := PROS_ERR_F;
     status_pitch := PROS_ERR_F; status_yaw := PROS_ERR_F |}.

(** [GPS_RAW_ERR_INIT] initialises a [gps_gyro_s_t] and a [gps_accel_s_t]. *)
Definition GPS_RAW_ERR_INIT_gyro : gps_gyro_s_t :=
  {| gyro_x := PROS_ERR_F; gyro_y := PROS_ERR_F; gyro_z := PROS_ERR_F |}.

Definition GPS_RAW_ERR_INIT_accel : gps_accel_s_t :=
  {| accel_x := PROS_ERR_F; accel_y := PROS_ERR_F; accel_z := PROS_ERR_F |}.

Definition gps_initialize_full (port : Z) (xInitial yInitial headingInitial xOffset yOffset : double)
    : M V Z :=
  claim_port_i (port - 1) E_DEVICE_GPS (fun device =>
    VexOriginSet (device_info device) xOffset yOffset ;;;
    VexInitialPositionSet (device_info device) xInitial yInitial headingInitial ;;;
    return_port (port - 1) PROS_SUCCESS).

Definition gps_set_offset (port : Z) (xOffset yOffset : double) : M V Z :=
  claim_port_i (port - 1) E_DEVICE_GPS (fun device =>
    VexOriginSet (device_info device) xOffset yOffset ;;;
    return_port (port - 1) PROS_SUCCESS).

Definition gps_get_offset (port : Z) : M V gps_position_s_t :=
  let rtv := {| position_s_x := PROS_ERR_F; position_s_y := PROS_ERR_F |} in
  ok <- claim_port_try (port - 1) E_DEVICE_GPS ;;
  if negb ok then ret rtv
  else
    let x := PROS_ERR_F in
    let y := PROS_ERR_F in
    device <- registry_get_device (port - 1) ;;
    info <- deref_device_info device ;;
    xy <- VexOriginGet info x y ;;
    let rtv := {| position_s_x := fst xy; position_s_y := snd xy |} in
    return_port (port - 1) rtv.

Definition gps_set_position (port : Z) (xInitial yInitial headingInitial : double) : M V Z :=
  claim_port_i (port - 1) E_DEVICE_GPS (fun device =>
    VexInitialPositionSet (device_info device) xInitial yInitial headingInitial ;;;
    return_port (port - 1) PROS_SUCCESS).

(** [rate] is a [uint32_t]; [rate -= rate % 5] is unsigned arithmetic. *)
Definition gps_set_data_rate (port : Z) (rate : Z) : M V Z :=
  claim_port_i (port - 1) E_DEVICE_GPS (fun device =>
    let rate :=
      if rate <? GPS_MINIMUM_DATA_RATE then GPS_MINIMUM_DATA_RATE
      else wrap_u32 (rate - rate mod GPS_MINIMUM_DATA_RATE) in
    VexDataRateSet (device_info device) rate ;;;
    return_port (port - 1) PROS_SUCCESS).

Definition gps_get_error (port : Z) : M V double :=
  claim_port_f (port - 1) E_DEVICE_GPS (fun device =>
    rtv <- VexErrorGet (device_info device) ;;
    return_port (port - 1) rtv).

Definition gps_get_position_and_orientation (port : Z) : M V gps_status_s_t :=
  let rtv := GPS_STATUS_ERR_INIT in
  ok <- claim_port_try (port - 1) E_DEVICE_GPS ;;
  if negb ok then ret rtv
  else
    device <- registry_get_device (port - 1) ;;
    info <- deref_device_info device ;;
    data <- VexAttitudeGet info false ;;
    let rtv := {| status_x := position_x data; status_y := position_y data;
                  status_pitch := pitch data; status_roll := roll data;
                  status_yaw := yaw data |} in
    return_port (port - 1) rtv.

Definition gps_get_position (port : Z) : M V gps_position_s_t :=
  let rtv := {| position_s_x := PROS_ERR_F; position_s_y := PROS_ERR_F |} in
  ok <- claim_port_try (port - 1) E_DEVICE_GPS ;;
  if negb ok then ret rtv
  else
    device <- registry_get_device (port - 1) ;;
    info <- deref_device_info device ;;
    data <- VexAttitudeGet info false ;;
    let rtv := {| position_s_x := position_x data; position_s_y := position_y data |} in
    return_port (port - 1) rtv.

Definition gps_get_position_x (port : Z) : M V double :=
  claim_port_f (port - 1) E_DEVICE_GPS (fun device =>
    data <- VexAttitudeGet (device_info device) false ;;
    let rtv := position_x data in
    return_port (port - 1) rtv).

Definition gps_get_position_y (port : Z) : M V double :=
  claim_port_f (port - 1) E_DEVICE_GPS (fun device =>
    data <- VexAttitudeGet (device_info device) false ;;
    let rtv := position_y data in
    return_port (port - 1) rtv).

Definition gps_get_orientation (port : Z) : M V gps_orientation_s_t :=
  let rtv := {| orientation_pitch := PROS_ERR_F; orientation_roll := PROS_ERR_F;
                orientation_yaw := PROS_ERR_F |} in
  ok <- claim_port_try (port - 1) E_DEVICE_GPS ;;
  if negb ok then ret rtv
  else
    device <- registry_get_device (port - 1) ;;
    info <- deref_device_info device ;;
    data <- VexAttitudeGet info false ;;
    let rtv := {| orientation_pitch := pitch data; orientation_roll := roll data;
                  orientation_yaw := yaw data |} in
    return_port (port - 1) rtv.

Definition gps_get_pitch (port : Z) : M V double :=
  claim_port_f (port - 1) E_DEVICE_GPS (fun device =>
    data <- VexAttitudeGet (device_info device) false ;;
    let rtv := pitch data in
    return_port (port - 1) rtv).

Definition gps_get_roll (port : Z) : M V double :=
  claim_port_f (port - 1) E_DEVICE_GPS (fun device =>
    data <- VexAttitudeGet (device_info device) false ;;
    let rtv := roll data in
    return_port (port - 1) rtv).

Definition gps_get_yaw (port : Z) : M V double :=
  claim_port_f (port - 1) E_DEVICE_GPS (fun device =>
    data <- VexAttitudeGet (device_info device) false ;;
    let rtv := yaw data in
    return_port (port - 1) rtv).

Definition gps_get_heading (port : Z) : M V double :=
  claim_port_f (port - 1) E_DEVICE_GPS (fun device =>
    rtv <- VexDegreesGet (device_info device) ;;
    return_port (port - 1) rtv).

Definition gps_get_heading_raw (port : Z) : M V double :=
  claim_port_f (port - 1) E_DEVICE_GPS (fun device =>
    rtv <- VexHeadingGet (device_info device) ;;
    return_port (port - 1) rtv).

Definition gps_get_gyro_rate (port : Z) : M V gps_gyro_s_t :=
  let rtv := GPS_RAW_ERR_INIT_gyro in
  ok <- claim_port_try (port - 1) E_DEVICE_GPS ;;
  if negb ok then ret rtv
  else
    device <- registry_get_device (port - 1) ;;
    info <- deref_device_info device ;;
    data <- VexRawGyroGet info ;;
    let rtv := {| gyro_x := raw_x data; gyro_y := raw_y data; gyro_z := raw_z data |} in
    return_port (port - 1) rtv.

Definition gps_get_gyro_rate_x (port : Z) : M V double :=
  claim_port_f (port - 1) E_DEVICE_GPS (fun device =>
    data <- VexRawGyroGet (device_info device) ;;
    let rtv := raw_x data in
    return_port (port - 1) rtv).

Definition gps_get_gyro_rate_y (port : Z) : M V double :=
  claim_port_f (port - 1) E_DEVICE_GPS (fun device =>
    data <- VexRawGyroGet (device_info device) ;;
    let rtv := raw_y data in
    return_port (port - 1) rtv).

Definition gps_get_gyro_rate_z (port : Z) : M V double :=
  claim_port_f (port - 1) E_DEVICE_GPS (fun device =>
    data <- VexRawGyroGet (device_info device) ;;
    let rtv := raw_z data in
    return_port (port - 1) rtv).

Definition gps_get_accel (port : Z) : M V gps_accel_s_t :=
  let rtv := GPS_RAW_ERR_INIT_accel in
  ok <- claim_port_try (port - 1) E_DEVICE_GPS ;;
  if negb ok then ret rtv
  else
    device <- registry_get_device (port - 1) ;;
    info <- deref_device_info device ;;
    data <- VexRawAccelGet info ;;
    let rtv := {| accel_x := raw_x data; accel_y := raw_y data; accel_z := raw_z data |} in
    return_port (port - 1) rtv.

Definition gps_get_accel_x (port : Z) : M V double :=
  claim_port_f (port - 1) E_DEVICE_GPS (fun device =>
    data <- VexRawAccelGet (device_info device) ;;
    let rtv := raw_x data in
    return_port (port - 1) rtv).

Definition gps_get_accel_y (port : Z) : M V double :=
  claim_port_f (port - 1) E_DEVICE_GPS (fun device =>
    data <- VexRawAccelGet (device_info device) ;;
    let rtv := raw_y data in
    return_port (port - 1) rtv).

Definition gps_get_accel_z (port : Z) : M V double :=
  claim_port_f (port - 1) E_DEVICE_GPS (fun device =>
    data <- VexRawAccelGet (device_info device) ;;
    let rtv := raw_z data in
    return_port (port - 1) rtv).
End Gps.

(** ** Every accessor of the file, as one call type

    Used to state properties of "every GPS accessor": a call with its
    arguments, the value it returns, and the sentinel its return type
    designates. *)

Inductive gps_call : Type :=
| Gps_initialize_full (xInitial yInitial headingInitial xOffset yOffset : double)
| Gps_set_offset (xOffset yOffset : double)
| Gps_get_offset
| Gps_set_position (xInitial yInitial headingInitial : double)
| Gps_set_data_rate (rate : Z)
| Gps_get_error
| Gps_get_position_and_orientation
| Gps_get_position
| Gps_get_position_x
| Gps_get_position_y
| Gps_get_orientation
| Gps_get_pitch
| Gps_get_roll
| Gps_get_yaw
| Gps_get_heading
| Gps_get_heading_raw
| Gps_get_gyro_rate
| Gps_get_gyro_rate_x
| Gps_get_gyro_rate_y
| Gps_get_gyro_rate_z
| Gps_get_accel
| Gps_get_accel_x
| Gps_get_accel_y
| Gps_get_accel_z.

Inductive gps_value : Type :=
| VInt (z : Z)
| VDouble (d : double)
| VPosition (p : gps_position_s_t)
| VStatus (s : gps_status_s_t)
| VOrientation (o : gps_orientation_s_t)
| VGyro (g : gps_gyro_s_t)
| VAccel (a : gps_accel_s_t).

Section GpsCalls.
Context {V : Type} `{!VexDeviceGps V} `{!ProsConsts}.
Local Open Scope drv_scope.

Definition returning {A : Type} (inj : A -> gps_value) (m : M V A) : M V gps_value :=
  a <- m ;; ret (inj a).

Definition gps_run (c : gps_call) (port : Z) : M V gps_value :=
  match c with
  | Gps_initialize_full xi yi hi xo yo => returning VInt (gps_initialize_full port xi yi hi xo yo)
  | Gps_set_offset xo yo => returning VInt (gps_set_offset port xo yo)
  | Gps_get_offset => returning VPosition (gps_get_offset port)
  | Gps_set_position xi yi hi => returning VInt (gps_set_position port xi yi hi)
  | Gps_set_data_rate rate => returning VInt (gps_set_data_rate port rate)
  | Gps_get_error => returning VDouble (gps_get_error port)
  | Gps_get_position_and_orientation => returning VStatus (gps_get_position_and_orientation port)
  | Gps_get_position => returning VPosition (gps_get_position port)
  | Gps_get_position_x => returning VDouble (gps_get_position_x port)
  | Gps_get_position_y => returning VDouble (gps_get_position_y port)
  | Gps_get_orientation => returning VOrientation (gps_get_orientation port)
  | Gps_get_pitch => returning VDouble (gps_get_pitch port)
  | Gps_get_roll => returning VDouble (gps_get_roll port)
  | Gps_get_yaw => returning VDouble (gps_get_yaw port)
  | Gps_get_heading => returning VDouble (gps_get_heading port)
  | Gps_get_heading_raw => returning VDouble (gps_get_heading_raw port)
  | Gps_get_gyro_rate => returning VGyro (gps_get_gyro_rate port)
  | Gps_get_gyro_rate_x => returning VDouble (gps_get_gyro_rate_x port)
  | Gps_get_gyro_rate_y => returning VDouble (gps_get_gyro_rate_y port)
  | Gps_get_gyro_rate_z => returning VDouble (gps_get_gyro_rate_z port)
  | Gps_get_accel => returning VAccel (gps_get_accel port)
  | Gps_get_accel_x => returning VDouble (gps_get_accel_x port)
  | Gps_get_accel_y => returning VDouble (gps_get_accel_y port)
  | Gps_get_accel_z => returning VDouble (gps_get_accel_z port)
  end.

(** The designated sentinel of each accessor, by its C return type:
    [PROS_ERR] for [int32_t], [PROS_ERR_F] for [double], and the struct
    with [PROS_ERR_F] in every field for the struct types. *)
Definition gps_sentinel (c : gps_call) : gps_value :=
  match c with
  | Gps_initialize_full _ _ _ _ _ | Gps_set_offset _ _ | Gps_set_position _ _ _
  | Gps_set_data_rate _ => VInt PROS_ERR
  | Gps_get_offset | Gps_get_position =>
      VPosition {| position_s_x := PROS_ERR_F; position_s_y := PROS_ERR_F |}
  | Gps_get_position_and_orientation =>
      VStatus {| status_x := PROS_ERR_F; status_y := PROS_ERR_F; status_pitch := PROS_ERR_F;
                 status_roll := PROS_ERR_F; status_yaw := PROS_ERR_F |}
  | Gps_get_orientation =>
      VOrientation {| orientation_pitch := PROS_ERR_F; orientation_roll := PROS_ERR_F;
                      orientation_yaw := PROS_ERR_F |}
  | Gps_get_gyro_rate =>
      VGyro {| gyro_x := PROS_ERR_F; gyro_y := PROS_ERR_F; gyro_z := PROS_ERR_F |}
  | Gps_get_accel =>
      VAccel {| accel_x := PROS_ERR_F; accel_y := PROS_ERR_F; accel_z := PROS_ERR_F |}
  | _ => VDouble PROS_ERR_F
  end.

(** The world after [vexDeviceGpsDataRateSet] was handed [rate] for the
    device [d]: the SDK state moved by that call, the call logged, the
    registry as before. *)
Definition data_rate_forwarded (d : v5_smart_device_s_t) (rate : Z) (w : world V) : world V :=
  sdk_step (CallDataRateSet (device_info d) rate)
           (vexDeviceGpsDataRateSet (device_info d) rate (vex w)) w.

(** The claim an accessor on [port] makes, looked at from outside. *)
Definition gps_claim (port : Z) (w : world V) : Guard.claim_result :=
  fst (Guard.claim (port - 1) E_DEVICE_GPS (registry w)).
End GpsCalls.

(** ** The SD-card wrappers, src/devices/vdml_usd.cpp *)

(** The C functions [usd_is_installed] and [usd_list_files] (pros::c), which
    the wrappers call and which are not part of the sources at hand: an
    interface over the state [S] they work on.  [buffer] is written through,
    so its contents come back with the result. *)
Class UsdC (S : Type) : Type := {
  usd_is_installed : S -> Z * S;
  usd_list_files : list Byte.byte -> list Byte.byte -> Z -> S -> (Z * list Byte.byte) * S
}.

Module Usd.
Section Usd.
Context {S : Type} `{!UsdC S}.

(** [pros::usd::is_installed] *)
Definition is_installed : S -> Z * S :=
  fun s => usd_is_installed s.

(** [pros::usd::list_files] *)
Definition list_files (path buffer : list Byte.byte) (len : Z) : S -> (Z * list Byte.byte) * S :=
  fun s => usd_list_files path buffer len s.
End Usd.
End Usd.

(** ** A simulated device, for running the driver on concrete inputs *)

Module Sim.
(** One simulated GPS sensor: what was last written to it and what its
    reads return. *)
Record device : Type := mkSim {
  origin : double * double;
  initial : double * double * double;
  data_rate : Z;
  attitude : V5_DeviceGpsAttitude;
  gyro : V5_DeviceGpsRaw;
  accel : V5_DeviceGpsRaw;
  error : double;
  degrees : double;
  heading : double
}.

Definition api : VexDeviceGps device := {|
  vexDeviceGpsOriginSet := fun _ x y d =>
    mkSim (x, y) (initial d) (data_rate d) (attitude d) (gyro d) (accel d)
          (error d) (degrees d) (heading d);
  vexDeviceGpsInitialPositionSet := fun _ x y h d =>
    mkSim (origin d) (x, y, h) (data_rate d) (attitude d) (gyro d) (accel d)
          (error d) (degrees d) (heading d);
  vexDeviceGpsOriginGet := fun _ _ _ d => (origin d, d);
  vexDeviceGpsDataRateSet := fun _ rate d =>
    mkSim (origin d) (initial d) rate (attitude d) (gyro d) (accel d)
          (error d) (degrees d) (heading d);
  vexDeviceGpsErrorGet := fun _ d => (error d, d);
  vexDeviceGpsAttitudeGet := fun _ _ d => (attitude d, d);
  vexDeviceGpsDegreesGet := fun _ d => (degrees d, d);
  vexDeviceGpsHeadingGet := fun _ d => (heading d, d);
  vexDeviceGpsRawGyroGet := fun _ d => (gyro d, d);
  vexDeviceGpsRawAccelGet := fun _ d => (accel d, d)
|}.

(** Concrete constants for the simulation: [PROS_ERR] as [INT32_MAX],
    [PROS_ERR_F] as [INFINITY], 21 ports (indices 0 to 20). *)
Definition consts : ProsConsts := {|
  PROS_ERR := 2147483647;
  PROS_ERR_F := infinity;
  PROS_SUCCESS := 1;
  NUM_V5_PORTS := 21;
  E_DEVICE_GPS := 20
|}.

Definition E_DEVICE_MOTOR : v5_device_e_t := 2.

Definition dev0 : device := {|
  origin := (0, 0)%float;
  initial := (0, 0, 0)%float;
  data_rate := 5;
  attitude := {| pitch := 3; roll := 4; yaw := 5; position_x := 1; position_y := 2 |}%float;
  gyro := {| raw_x := 0.5; raw_y := 0.25; raw_z := 0.125 |}%float;
  accel := {| raw_x := 7; raw_y := 8; raw_z := 9 |}%float;
  error := 0.0625%float;
  degrees := 90%float;
  heading := 270%float
|}.

(** What device detection registered: a GPS sensor at index 0 (port 1), a
    motor at index 1 (port 2), a GPS sensor at index 2 (port 3); nothing
    else is plugged in. *)
Definition plugged : gmap Z v5_smart_device_s_t :=
  @Registry.register consts 0 20 100
    (@Registry.register consts 1 E_DEVICE_MOTOR 101
      (@Registry.register consts 2 20 102 ∅)).

(** The registry while another task is inside a driver call on port 3: it
    has claimed the port and not yet returned it. *)
Definition reg0 : gmap Z v5_smart_device_s_t :=
  snd (@Guard.claim consts 2 20 plugged).

Definition w0 : world device := {| registry := reg0; vex := dev0; calls := [] |}.
End Sim.

(** ** Sequences of calls, and what a call log says *)

(** The device handle an SDK call was made on. *)
Definition call_handle (k : vex_call) : V5_DeviceT :=
  match k with
  | CallOriginSet h _ _ => h
  | CallInitialPositionSet h _ _ _ => h
  | CallOriginGet h => h
  | CallDataRateSet h _ => h
  | CallErrorGet h => h
  | CallAttitudeGet h _ => h
  | CallDegreesGet h => h
  | CallHeadingGet h => h
  | CallRawGyroGet h => h
  | CallRawAccelGet h => h
  end.

(** The accessors that return an [int32_t] status, [PROS_SUCCESS] or
    [PROS_ERR]: the four functions that write to the sensor. *)
Definition gps_returns_status (c : gps_call) : bool :=
  match c with
  | Gps_initialize_full _ _ _ _ _ | Gps_set_offset _ _ | Gps_set_position _ _ _
  | Gps_set_data_rate _ => true
  | _ => false
  end.

Section GpsSequences.
Context {V : Type} `{!VexDeviceGps V} `{!ProsConsts}.
Local Open Scope drv_scope.

(** One task making driver calls one after the other, each on its port. *)
Fixpoint gps_run_all (cs : list (gps_call * Z)) : M V (list gps_value) :=
  match cs with
  | [] => ret []
  | (c, port) :: rest =>
      v <- gps_run c port ;;
      vs <- gps_run_all rest ;;
      ret (v :: vs)
  end.

(** [gps_set_offset(port, xOffset, yOffset)] and then
    [gps_set_position(port, xInitial, yInitial, headingInitial)], the
    result of the second returned. *)
Definition gps_set_offset_then_position (port : Z)
    (xInitial yInitial headingInitial xOffset yOffset : double) : M V Z :=
  gps_set_offset port xOffset yOffset ;;;
  gps_set_position port xInitial yInitial headingInitial.
End GpsSequences.

(** A simulated sensor whose origin read writes nothing through its
    out-pointers; everything else as in [Sim]. *)
Module SimSilent.
Definition api : VexDeviceGps Sim.device := {|
  vexDeviceGpsOriginSet := @vexDeviceGpsOriginSet _ Sim.api;
  vexDeviceGpsInitialPositionSet := @vexDeviceGpsInitialPositionSet _ Sim.api;
  vexDeviceGpsOriginGet := fun _ x y d => ((x, y), d);
  vexDeviceGpsDataRateSet := @vexDeviceGpsDataRateSet _ Sim.api;
  vexDeviceGpsErrorGet := @vexDeviceGpsErrorGet _ Sim.api;
  vexDeviceGpsAttitudeGet := @vexDeviceGpsAttitudeGet _ Sim.api;
  vexDeviceGpsDegreesGet := @vexDeviceGpsDegreesGet _ Sim.api;
  vexDeviceGpsHeadingGet := @vexDeviceGpsHeadingGet _ Sim.api;
  vexDeviceGpsRawGyroGet := @vexDeviceGpsRawGyroGet _ Sim.api;
  vexDeviceGpsRawAccelGet := @vexDeviceGpsRawAccelGet _ Sim.api
|}.
End SimSilent.

(** * Properties *)

(** ** The guard *)

Section GuardFacts.
Context `{!ProsConsts}.

Lemma set_claimed_release (d : v5_smart_device_s_t) :
  claimed d = false -> set_claimed false (set_claimed true d) = d.
Proof. destruct d as [i t h c]; simpl; intros ->; reflexivity. Qed.

(** A failed claim leaves the registry as it was. *)
Lemma claim_err_registry idx ty (r r' : gmap Z v5_smart_device_s_t) e :
  Guard.claim idx ty r = (Guard.ClaimErr e, r') -> r' = r.
Proof.
  unfold Guard.claim.
  destruct (negb (Registry.validate_port idx)); [congruence|].
  destruct (Registry.lookup idx r) as [d|]; [|congruence].
  destruct (negb (device_type d =? ty)); [congruence|].
  destruct (claimed d); congruence.
Qed.

(** What a successful claim found and what it did. *)
Lemma claim_ok_inv idx ty (r r' : gmap Z v5_smart_device_s_t) d :
  Guard.claim idx ty r = (Guard.ClaimOk d, r') ->
  Registry.validate_port idx = true /\
  exists d0, r !! idx = Some d0 /\ device_type d0 = ty /\ claimed d0 = false /\
             d = set_claimed true d0 /\ r' = <[idx := d]> r.
Proof.
  unfold Guard.claim, Registry.lookup.
  destruct (Registry.validate_port idx); simpl; [|congruence].
  destruct (r !! idx) as [d0|]; [|congruence].
  destruct (device_type d0 =? ty) eqn:Ety; simpl; [|congruence].
  destruct (claimed d0) eqn:Ec; [congruence|].
  intros [= <- <-]. split; [reflexivity|].
  exists d0. apply Z.eqb_eq in Ety. auto.
Qed.

(** Claim then release gives the registry back. *)
Lemma release_after_claim idx ty (r r' : gmap Z v5_smart_device_s_t) d :
  Guard.claim idx ty r = (Guard.ClaimOk d, r') -> Guard.release idx r' = r.
Proof.
  intros Hc. apply claim_ok_inv in Hc as (_ & d0 & Hl & _ & Hfree & -> & ->).
  unfold Guard.release.
  apply map_eq. intros j. rewrite lookup_alter.
  destruct (decide (idx = j)) as [<-|Hne].
  - rewrite lookup_insert_eq. simpl. rewrite set_claimed_release by assumption.
    symmetry; assumption.
  - rewrite lookup_insert_ne by assumption. reflexivity.
Qed.

(** The explicit fetch after a successful claim finds the claimed device. *)
Lemma lookup_after_claim idx ty (r r' : gmap Z v5_smart_device_s_t) d :
  Guard.claim idx ty r = (Guard.ClaimOk d, r') -> Registry.lookup idx r' = Some d.
Proof.
  intros Hc. apply claim_ok_inv in Hc as (Hv & d0 & _ & _ & _ & _ & ->).
  unfold Registry.lookup. rewrite Hv. apply lookup_insert_eq.
Qed.
End GuardFacts.

(** ** The claim macros *)

Section MacroFacts.
Context {V : Type} `{!VexDeviceGps V} `{!ProsConsts}.

Lemma set_registry_same (w : world V) : set_registry (registry w) w = w.
Proof. destruct w; reflexivity. Qed.

Lemma guard_claim_err idx ty (w : world V) e :
  fst (Guard.claim idx ty (registry w)) = Guard.ClaimErr e ->
  guard_claim idx ty w = Some (Guard.ClaimErr e, w).
Proof.
  unfold guard_claim. destruct (Guard.claim idx ty (registry w)) as [res r'] eqn:Hc.
  simpl. intros ->. apply claim_err_registry in Hc as ->.
  rewrite set_registry_same. reflexivity.
Qed.

Lemma guard_claim_ok idx ty (w : world V) d :
  fst (Guard.claim idx ty (registry w)) = Guard.ClaimOk d ->
  guard_claim idx ty w =
    Some (Guard.ClaimOk d, set_registry (<[idx := d]> (registry w)) w) /\
  Registry.lookup idx (<[idx := d]> (registry w)) = Some d /\
  Guard.release idx (<[idx := d]> (registry w)) = registry w.
Proof.
  unfold guard_claim. destruct (Guard.claim idx ty (registry w)) as [res r'] eqn:Hc.
  simpl. intros ->.
  pose proof (lookup_after_claim _ _ _ _ _ Hc) as Hl.
  pose proof (release_after_claim _ _ _ _ _ Hc) as Hr.
  apply claim_ok_inv in Hc as (_ & d0 & _ & _ & _ & _ & ->). auto.
Qed.

(** The macro on a failed claim: the function returns [error_code] at
    once, the world untouched. *)
Lemma claim_port_err {A : Type} (error_code : A) idx ty body (w : world V) e :
  fst (Guard.claim idx ty (registry w)) = Guard.ClaimErr e ->
  claim_port error_code idx ty body w = Some (error_code, w).
Proof.
  intros Hc. unfold claim_port, bind. rewrite (guard_claim_err _ _ _ _ Hc). reflexivity.
Qed.

Lemma claim_port_ok {A : Type} (error_code : A) idx ty body (w : world V) d :
  fst (Guard.claim idx ty (registry w)) = Guard.ClaimOk d ->
  claim_port error_code idx ty body w =
    body d (set_registry (<[idx := d]> (registry w)) w).
Proof.
  intros Hc. unfold claim_port, bind.
  destruct (guard_claim_ok _ _ _ _ Hc) as (-> & _). reflexivity.
Qed.

Lemma claim_port_try_err idx ty (w : world V) e :
  fst (Guard.claim idx ty (registry w)) = Guard.ClaimErr e ->
  claim_port_try idx ty w = Some (false, w).
Proof.
  intros Hc. unfold claim_port_try, bind. rewrite (guard_claim_err _ _ _ _ Hc). reflexivity.
Qed.

Lemma claim_port_try_ok idx ty (w : world V) d :
  fst (Guard.claim idx ty (registry w)) = Guard.ClaimOk d ->
  claim_port_try idx ty w = Some (true, set_registry (<[idx := d]> (registry w)) w).
Proof.
  intros Hc. unfold claim_port_try, bind.
  destruct (guard_claim_ok _ _ _ _ Hc) as (-> & _). reflexivity.
Qed.

(** Releasing at the end of a claimed body: whatever the SDK calls in
    between did to the SDK state and the log, the registry is back to what
    it was before the claim. *)
Lemma return_port_after_claim {A : Type} idx ty (rtn : A) (w : world V) d (v : V) (l : list vex_call) :
  fst (Guard.claim idx ty (registry w)) = Guard.ClaimOk d ->
  return_port idx rtn {| registry := <[idx := d]> (registry w); vex := v; calls := l |} =
    Some (rtn, {| registry := registry w; vex := v; calls := l |}).
Proof.
  intros Hc. unfold return_port, set_registry. simpl.
  destruct (guard_claim_ok _ _ _ _ Hc) as (_ & _ & ->). reflexivity.
Qed.

Lemma registry_get_device_after_claim idx ty (w : world V) d (v : V) (l : list vex_call) :
  fst (Guard.claim idx ty (registry w)) = Guard.ClaimOk d ->
  registry_get_device idx {| registry := <[idx := d]> (registry w); vex := v; calls := l |} =
    Some (Some d, {| registry := <[idx := d]> (registry w); vex := v; calls := l |}).
Proof.
  intros Hc. unfold registry_get_device. simpl.
  destruct (guard_claim_ok _ _ _ _ Hc) as (_ & -> & _). reflexivity.
Qed.
End MacroFacts.

(** Running an accessor whose claim fails: the macro or the early return. *)
Ltac gps_fail Hc :=
  unfold gps_claim in Hc;
  first [ unfold claim_port_i, claim_port_f; rewrite (claim_port_err _ _ _ _ _ _ Hc)
        | unfold bind at 1; rewrite (claim_port_try_err _ _ _ _ Hc); simpl ];
  try reflexivity.

(** Running an accessor whose claim succeeds, up to the SDK calls. *)
Ltac gps_ok Hc :=
  unfold gps_claim in Hc;
  let Hrel := fresh "Hrel" in
  pose proof (proj2 (proj2 (guard_claim_ok _ _ _ _ Hc))) as Hrel;
  first [ unfold claim_port_i, claim_port_f; rewrite (claim_port_ok _ _ _ _ _ _ Hc)
        | unfold bind at 1; rewrite (claim_port_try_ok _ _ _ _ Hc); simpl;
          unfold bind at 1; unfold set_registry at 1;
          rewrite (registry_get_device_after_claim _ _ _ _ _ _ Hc);
          unfold bind at 1; simpl ];
  unfold bind, VexOriginSet, VexInitialPositionSet, VexOriginGet, VexDataRateSet,
    VexErrorGet, VexAttitudeGet, VexDegreesGet, VexHeadingGet, VexRawGyroGet,
    VexRawAccelGet, return_port, sdk_step, set_registry; simpl;
  repeat match goal with
         | |- context [let (_, _) := ?call in _] => destruct call eqn:?; simpl
         end;
  rewrite ?Hrel, <- ?app_assoc; simpl.

Section AccessorFacts.
Context {V : Type} `{!VexDeviceGps V} `{!ProsConsts}.

Lemma gps_get_position_ok port (w : world V) d :
  gps_claim port w = Guard.ClaimOk d ->
  gps_get_position port w =
    let rd := vexDeviceGpsAttitudeGet (device_info d) false (vex w) in
    Some ({| position_s_x := position_x (fst rd); position_s_y := position_y (fst rd) |},
          sdk_step (CallAttitudeGet (device_info d) false) (snd rd) w).
Proof.
  intros Hc. unfold gps_get_position. gps_ok Hc. reflexivity.
Qed.

Lemma gps_get_position_x_ok port (w : world V) d :
  gps_claim port w = Guard.ClaimOk d ->
  gps_get_position_x port w =
    let rd := vexDeviceGpsAttitudeGet (device_info d) false (vex w) in
    Some (position_x (fst rd),
          sdk_step (CallAttitudeGet (device_info d) false) (snd rd) w).
Proof.
  intros Hc. unfold gps_get_position_x. gps_ok Hc. reflexivity.
Qed.
End AccessorFacts.

Ltac gps_unfold :=
  unfold gps_run, returning, gps_initialize_full, gps_set_offset, gps_get_offset,
    gps_set_position, gps_set_data_rate, gps_get_error, gps_get_position_and_orientation,
    gps_get_position, gps_get_position_x, gps_get_position_y, gps_get_orientation,
    gps_get_pitch, gps_get_roll, gps_get_yaw, gps_get_heading, gps_get_heading_raw,
    gps_get_gyro_rate, gps_get_gyro_rate_x, gps_get_gyro_rate_y, gps_get_gyro_rate_z,
    gps_get_accel, gps_get_accel_x, gps_get_accel_y, gps_get_accel_z.

Section EveryAccessor.
Context {V : Type} `{!VexDeviceGps V} `{!ProsConsts}.

(** Whatever the accessor, a failed claim makes it return its sentinel
    with the world exactly as it was. *)
Lemma gps_run_claim_err c port (w : world V) e :
  gps_claim port w = Guard.ClaimErr e ->
  gps_run c port w = Some (gps_sentinel c, w).
Proof.
  intros Hc.
  destruct c; gps_unfold; unfold bind at 1; gps_fail Hc.
Qed.

(** Whatever the accessor, a successful claim makes it return with the
    registry as it was, after at least one SDK call. *)
Lemma gps_run_claim_ok c port (w : world V) d :
  gps_claim port w = Guard.ClaimOk d ->
  exists (v : gps_value) (vx : V) (k : vex_call) (l : list vex_call),
    gps_run c port w =
      Some (v, {| registry := registry w; vex := vx; calls := calls w ++ k :: l |}).
Proof.
  intros Hc.
  destruct c; gps_unfold; unfold bind at 1; gps_ok Hc;
    do 4 eexists; reflexivity.
Qed.

(** The claim only looks at the registry. *)
Lemma gps_claim_registry port (w w' : world V) :
  registry w' = registry w -> gps_claim port w' = gps_claim port w.
Proof. unfold gps_claim. intros ->. reflexivity. Qed.

(** An accessor always returns, and the registry is then what it was. *)
Lemma gps_run_registry c port (w : world V) :
  exists v w', gps_run c port w = Some (v, w') /\ registry w' = registry w.
Proof.
  destruct (gps_claim port w) as [d|e] eqn:Hc.
  - destruct (gps_run_claim_ok c port w d Hc) as (v & vx & k & l & Hrun).
    eexists _, _. split; [exact Hrun | reflexivity].
  - eexists _, _. split; [apply (gps_run_claim_err c port w e Hc) | reflexivity].
Qed.

(** Which ports fail the claim, and why. *)
Lemma gps_claim_out_of_range port (w : world V) :
  Registry.validate_port (port - 1) = false ->
  gps_claim port w = Guard.ClaimErr Guard.OutOfRange.
Proof. unfold gps_claim, Guard.claim. intros ->. reflexivity. Qed.

Lemma gps_claim_not_initialized port (w : world V) :
  Registry.validate_port (port - 1) = true ->
  registry w !! (port - 1) = None ->
  gps_claim port w = Guard.ClaimErr Guard.NotInitialized.
Proof. unfold gps_claim, Guard.claim, Registry.lookup. intros -> ->. reflexivity. Qed.

Lemma gps_claim_wrong_type port (w : world V) d :
  Registry.validate_port (port - 1) = true ->
  registry w !! (port - 1) = Some d ->
  device_type d <> E_DEVICE_GPS ->
  gps_claim port w = Guard.ClaimErr Guard.WrongDeviceType.
Proof.
  unfold gps_claim, Guard.claim, Registry.lookup. intros -> -> Hty.
  apply Z.eqb_neq in Hty. rewrite Hty. reflexivity.
Qed.

Lemma gps_claim_already_claimed port (w : world V) d :
  Registry.validate_port (port - 1) = true ->
  registry w !! (port - 1) = Some d ->
  device_type d = E_DEVICE_GPS ->
  claimed d = true ->
  gps_claim port w = Guard.ClaimErr Guard.AlreadyClaimed.
Proof.
  unfold gps_claim, Guard.claim, Registry.lookup. intros -> -> Hty ->.
  apply Z.eqb_eq in Hty. rewrite Hty. reflexivity.
Qed.

(** A port that is in range, holds a free GPS sensor: the claim succeeds. *)
Lemma gps_claim_free port (w : world V) d :
  Registry.validate_port (port - 1) = true ->
  registry w !! (port - 1) = Some d ->
  device_type d = E_DEVICE_GPS ->
  claimed d = false ->
  gps_claim port w = Guard.ClaimOk (set_claimed true d).
Proof.
  unfold gps_claim, Guard.claim, Registry.lookup. intros -> -> Hty ->.
  apply Z.eqb_eq in Hty. rewrite Hty. reflexivity.
Qed.
End EveryAccessor.

(** ** The data rate *)

Section DataRate.
Context {V : Type} `{!VexDeviceGps V} `{!ProsConsts}.

(** [rate - rate % 5] never leaves the range of [uint32_t]. *)
Lemma wrap_u32_round_down rate :
  0 <= rate < 2 ^ 32 ->
  wrap_u32 (rate - rate mod GPS_MINIMUM_DATA_RATE) = rate - rate mod GPS_MINIMUM_DATA_RATE.
Proof.
  intros Hr. unfold wrap_u32, GPS_MINIMUM_DATA_RATE.
  pose proof (Z.mod_pos_bound rate 5 ltac:(lia)) as Hm.
  pose proof (Z.mod_le rate 5 ltac:(lia) ltac:(lia)) as Hle.
  apply Z.mod_small. lia.
Qed.

Lemma gps_set_data_rate_ok port rate (w : world V) d :
  gps_claim port w = Guard.ClaimOk d ->
  0 <= rate < 2 ^ 32 ->
  gps_set_data_rate port rate w =
    Some (PROS_SUCCESS,
          data_rate_forwarded d (if rate <? 5 then 5 else rate - rate mod 5) w).
Proof.
  intros Hc Hr. unfold gps_set_data_rate. gps_ok Hc.
  unfold data_rate_forwarded, sdk_step.
  change 5 with GPS_MINIMUM_DATA_RATE.
  destruct (rate <? GPS_MINIMUM_DATA_RATE); [reflexivity|].
  rewrite (wrap_u32_round_down rate Hr). reflexivity.
Qed.

(** C1.  On a port whose claim succeeds, [gps_set_data_rate] hands the
    SDK the requested rate quantized: 5 when [rate < 5], otherwise
    [rate - rate % 5]; so 0, 5 and 7 give 5, 12 gives 10 and 23 gives 20.
    The call is the only one made and the function returns
    [PROS_SUCCESS]. *)
Theorem gps_set_data_rate_quantizes port (w : world V) d :
  gps_claim port w = Guard.ClaimOk d ->
  (forall rate, 0 <= rate < 2 ^ 32 ->
     gps_set_data_rate port rate w =
       Some (PROS_SUCCESS,
             data_rate_forwarded d (if rate <? 5 then 5 else rate - rate mod 5) w)) /\
  gps_set_data_rate port 0 w = Some (PROS_SUCCESS, data_rate_forwarded d 5 w) /\
  gps_set_data_rate port 5 w = Some (PROS_SUCCESS, data_rate_forwarded d 5 w) /\
  gps_set_data_rate port 7 w = Some (PROS_SUCCESS, data_rate_forwarded d 5 w) /\
  gps_set_data_rate port 12 w = Some (PROS_SUCCESS, data_rate_forwarded d 10 w) /\
  gps_set_data_rate port 23 w = Some (PROS_SUCCESS, data_rate_forwarded d 20 w).
Proof.
  intros Hc. split; [intros rate Hr; apply gps_set_data_rate_ok; assumption|].
  repeat split.
  - apply (gps_set_data_rate_ok port 0 w d Hc). lia.
  - apply (gps_set_data_rate_ok port 5 w d Hc). lia.
  - apply (gps_set_data_rate_ok port 7 w d Hc). lia.
  - apply (gps_set_data_rate_ok port 12 w d Hc). lia.
  - apply (gps_set_data_rate_ok port 23 w d Hc). lia.
Qed.
End DataRate.

(** ** One attitude read, fanned out *)

Section Attitude.
Context {V : Type} `{!VexDeviceGps V} `{!ProsConsts}.

Lemma gps_get_orientation_ok port (w : world V) d :
  gps_claim port w = Guard.ClaimOk d ->
  gps_get_orientation port w =
    let rd := vexDeviceGpsAttitudeGet (device_info d) false (vex w) in
    Some ({| orientation_pitch := pitch (fst rd); orientation_roll := roll (fst rd);
             orientation_yaw := yaw (fst rd) |},
          sdk_step (CallAttitudeGet (device_info d) false) (snd rd) w).
Proof.
  intros Hc. unfold gps_get_orientation. gps_ok Hc. reflexivity.
Qed.

Lemma gps_get_position_y_ok port (w : world V) d :
  gps_claim port w = Guard.ClaimOk d ->
  gps_get_position_y port w =
    let rd := vexDeviceGpsAttitudeGet (device_info d) false (vex w) in
    Some (position_y (fst rd),
          sdk_step (CallAttitudeGet (device_info d) false) (snd rd) w).
Proof.
  intros Hc. unfold gps_get_position_y. gps_ok Hc. reflexivity.
Qed.

(** C2.  On a port whose claim succeeds, when the attitude read returns
    position_x 1, position_y 2, pitch 3, roll 4, yaw 5, [gps_get_position]
    returns x = 1, y = 2 and [gps_get_orientation] returns roll = 4,
    pitch = 3, yaw = 5. *)
Theorem gps_attitude_fan_out port (w : world V) d :
  gps_claim port w = Guard.ClaimOk d ->
  fst (vexDeviceGpsAttitudeGet (device_info d) false (vex w)) =
    {| position_x := 1; position_y := 2; pitch := 3; roll := 4; yaw := 5 |}%float ->
  fst <$> gps_get_position port w =
    Some {| position_s_x := 1; position_s_y := 2 |}%float /\
  fst <$> gps_get_orientation port w =
    Some {| orientation_roll := 4; orientation_pitch := 3; orientation_yaw := 5 |}%float.
Proof.
  intros Hc Hrd.
  rewrite (gps_get_position_ok port w d Hc), (gps_get_orientation_ok port w d Hc).
  simpl. rewrite Hrd. split; reflexivity.
Qed.
End Attitude.

(** ** Failure paths and the claimed flag *)

Section Failure.
Context {V : Type} `{!VexDeviceGps V} `{!ProsConsts}.

(** A claim that fails as already claimed found the claimed flag set. *)
Lemma gps_claim_already_claimed_flag port (w : world V) :
  gps_claim port w = Guard.ClaimErr Guard.AlreadyClaimed ->
  Registry.is_claimed (port - 1) (registry w) = true.
Proof.
  unfold gps_claim, Guard.claim, Registry.lookup, Registry.is_claimed.
  destruct (Registry.validate_port (port - 1)); simpl; [|discriminate].
  destruct (registry w !! (port - 1)) as [d0|]; [|discriminate].
  destruct (negb (device_type d0 =? E_DEVICE_GPS)); [discriminate|].
  destruct (claimed d0); [reflexivity | discriminate].
Qed.

(** A claim that succeeds found the claimed flag clear. *)
Lemma gps_claim_ok_flag port (w : world V) d :
  gps_claim port w = Guard.ClaimOk d ->
  Registry.is_claimed (port - 1) (registry w) = false.
Proof.
  unfold gps_claim. destruct (Guard.claim _ _ _) as [res r'] eqn:Hcl. simpl.
  intros ->. apply claim_ok_inv in Hcl as (_ & d0 & Hl & _ & Hfree & _).
  unfold Registry.is_claimed. rewrite Hl. exact Hfree.
Qed.

(** C3, as amended.  In every world, every accessor returns and gives the
    registry back as it found it, so the claimed flag of the port at the
    return is the flag at the call: false whenever it was false at the call,
    on the success path (claimed, then released) and on every failure path
    (registry untouched); and still true on the failure path of a port that
    another holder had claimed at the call, where the accessor returns its
    sentinel with the world untouched. *)
Theorem gps_accessor_keeps_claimed_flag c port (w : world V) :
  exists v w',
    gps_run c port w = Some (v, w') /\
    registry w' = registry w /\
    Registry.is_claimed (port - 1) (registry w') =
      Registry.is_claimed (port - 1) (registry w) /\
    (Registry.is_claimed (port - 1) (registry w) = false ->
     Registry.is_claimed (port - 1) (registry w') = false) /\
    (forall d, gps_claim port w = Guard.ClaimOk d ->
               Registry.is_claimed (port - 1) (registry w') = false) /\
    (gps_claim port w = Guard.ClaimErr Guard.AlreadyClaimed ->
     v = gps_sentinel c /\ w' = w /\
     Registry.is_claimed (port - 1) (registry w') = true).
Proof.
  destruct (gps_claim port w) as [d|e] eqn:Hc.
  - destruct (gps_run_claim_ok c port w d Hc) as (v & vx & k & l & Hrun).
    eexists _, _. split; [exact Hrun|]. simpl.
    split; [reflexivity|]. split; [reflexivity|]. split; [tauto|].
    split; [|discriminate].
    intros _ _. exact (gps_claim_ok_flag port w d Hc).
  - exists (gps_sentinel c), w.
    split; [apply (gps_run_claim_err c port w e Hc)|].
    split; [reflexivity|]. split; [reflexivity|]. split; [tauto|].
    split; [discriminate|].
    intros [= ->]. split; [reflexivity|]. split; [reflexivity|].
    exact (gps_claim_already_claimed_flag port w Hc).
Qed.

(** C4.  On a port whose index [port - 1] is outside the valid range,
    every accessor returns the sentinel of its return type and the world,
    registry included, is exactly what it was. *)
Theorem gps_out_of_range_sentinel c port (w : world V) :
  Registry.validate_port (port - 1) = false ->
  gps_run c port w = Some (gps_sentinel c, w).
Proof.
  intros Hrange.
  apply (gps_run_claim_err c port w Guard.OutOfRange).
  apply gps_claim_out_of_range. exact Hrange.
Qed.

(** C5.  Each struct-returning accessor, on each failure path (the claim
    fails, for whichever of the four reasons), returns its struct with
    [PROS_ERR_F] in every field. *)
Theorem gps_struct_sentinel_complete port (w : world V) e :
  gps_claim port w = Guard.ClaimErr e ->
  fst <$> gps_get_offset port w =
    Some {| position_s_x := PROS_ERR_F; position_s_y := PROS_ERR_F |} /\
  fst <$> gps_get_position_and_orientation port w =
    Some {| status_x := PROS_ERR_F; status_y := PROS_ERR_F; status_pitch := PROS_ERR_F;
            status_roll := PROS_ERR_F; status_yaw := PROS_ERR_F |} /\
  fst <$> gps_get_position port w =
    Some {| position_s_x := PROS_ERR_F; position_s_y := PROS_ERR_F |} /\
  fst <$> gps_get_orientation port w =
    Some {| orientation_pitch := PROS_ERR_F; orientation_roll := PROS_ERR_F;
            orientation_yaw := PROS_ERR_F |} /\
  fst <$> gps_get_gyro_rate port w =
    Some {| gyro_x := PROS_ERR_F; gyro_y := PROS_ERR_F; gyro_z := PROS_ERR_F |} /\
  fst <$> gps_get_accel port w =
    Some {| accel_x := PROS_ERR_F; accel_y := PROS_ERR_F; accel_z := PROS_ERR_F |}.
Proof.
  intros Hc. unfold gps_claim in Hc.
  unfold gps_get_offset, gps_get_position_and_orientation, gps_get_position,
    gps_get_orientation, gps_get_gyro_rate, gps_get_accel, bind.
  rewrite (claim_port_try_err _ _ _ _ Hc). simpl.
  repeat split.
Qed.

(** C6.  When the claim on the port fails (out of range, not initialized,
    wrong device type or already claimed), every accessor returns its
    sentinel and no SDK call is made: the call log and the SDK state are
    what they were. *)
Theorem gps_no_sdk_call_without_claim c port (w : world V) e :
  gps_claim port w = Guard.ClaimErr e ->
  exists w',
    gps_run c port w = Some (gps_sentinel c, w') /\
    calls w' = calls w /\ vex w' = vex w.
Proof.
  intros Hc. exists w.
  rewrite (gps_run_claim_err c port w e Hc). auto.
Qed.
End Failure.

(** ** Offsets, bulk reads and scalar reads *)

Section Success.
Context {V : Type} `{!VexDeviceGps V} `{!ProsConsts}.

Lemma gps_set_offset_ok port x y (w : world V) d :
  gps_claim port w = Guard.ClaimOk d ->
  gps_set_offset port x y w =
    Some (PROS_SUCCESS,
          sdk_step (CallOriginSet (device_info d) x y)
                   (vexDeviceGpsOriginSet (device_info d) x y (vex w)) w).
Proof.
  intros Hc. unfold gps_set_offset. gps_ok Hc. reflexivity.
Qed.

Lemma gps_get_offset_ok port (w : world V) d :
  gps_claim port w = Guard.ClaimOk d ->
  gps_get_offset port w =
    let rd := vexDeviceGpsOriginGet (device_info d) PROS_ERR_F PROS_ERR_F (vex w) in
    Some ({| position_s_x := fst (fst rd); position_s_y := snd (fst rd) |},
          sdk_step (CallOriginGet (device_info d)) (snd rd) w).
Proof.
  intros Hc. unfold gps_get_offset. gps_ok Hc. reflexivity.
Qed.

(** C7.  On a port whose claim succeeds, with an SDK whose origin read
    gives back the origin just written, [gps_set_offset port x y] followed
    by [gps_get_offset port] returns [PROS_SUCCESS] and then the struct
    (x, y).  The second claim succeeds because the first was released. *)
Theorem gps_offset_round_trip port x y (w : world V) d :
  gps_claim port w = Guard.ClaimOk d ->
  fst (vexDeviceGpsOriginGet (device_info d) PROS_ERR_F PROS_ERR_F
         (vexDeviceGpsOriginSet (device_info d) x y (vex w))) = (x, y) ->
  exists w1 w2,
    gps_set_offset port x y w = Some (PROS_SUCCESS, w1) /\
    gps_claim port w1 = Guard.ClaimOk d /\
    gps_get_offset port w1 = Some ({| position_s_x := x; position_s_y := y |}, w2).
Proof.
  intros Hc Hsdk.
  rewrite (gps_set_offset_ok port x y w d Hc).
  eexists _, _. split; [reflexivity|].
  assert (Hc1 : gps_claim port
            (sdk_step (CallOriginSet (device_info d) x y)
                      (vexDeviceGpsOriginSet (device_info d) x y (vex w)) w) =
          Guard.ClaimOk d)
    by (rewrite <- Hc; apply gps_claim_registry; reflexivity).
  split; [exact Hc1|].
  rewrite (gps_get_offset_ok _ _ d Hc1). simpl. rewrite Hsdk. reflexivity.
Qed.

(** C8.  On a port whose claim succeeds, each bulk accessor makes exactly
    one SDK call, the read, and every field of its result is a field of
    what that one read returned. *)
Theorem gps_bulk_single_read port (w : world V) d :
  gps_claim port w = Guard.ClaimOk d ->
  let h := device_info d in
  let att := vexDeviceGpsAttitudeGet h false (vex w) in
  let gyr := vexDeviceGpsRawGyroGet h (vex w) in
  let acc := vexDeviceGpsRawAccelGet h (vex w) in
  gps_get_position_and_orientation port w =
    Some ({| status_x := position_x (fst att); status_y := position_y (fst att);
             status_pitch := pitch (fst att); status_roll := roll (fst att);
             status_yaw := yaw (fst att) |},
          {| registry := registry w; vex := snd att;
             calls := calls w ++ [CallAttitudeGet h false] |}) /\
  gps_get_position port w =
    Some ({| position_s_x := position_x (fst att); position_s_y := position_y (fst att) |},
          {| registry := registry w; vex := snd att;
             calls := calls w ++ [CallAttitudeGet h false] |}) /\
  gps_get_orientation port w =
    Some ({| orientation_pitch := pitch (fst att); orientation_roll := roll (fst att);
             orientation_yaw := yaw (fst att) |},
          {| registry := registry w; vex := snd att;
             calls := calls w ++ [CallAttitudeGet h false] |}) /\
  gps_get_gyro_rate port w =
    Some ({| gyro_x := raw_x (fst gyr); gyro_y := raw_y (fst gyr); gyro_z := raw_z (fst gyr) |},
          {| registry := registry w; vex := snd gyr;
             calls := calls w ++ [CallRawGyroGet h] |}) /\
  gps_get_accel port w =
    Some ({| accel_x := raw_x (fst acc); accel_y := raw_y (fst acc); accel_z := raw_z (fst acc) |},
          {| registry := registry w; vex := snd acc;
             calls := calls w ++ [CallRawAccelGet h] |}).
Proof.
  intros Hc h att gyr acc. subst h att gyr acc.
  repeat split.
  - unfold gps_get_position_and_orientation. gps_ok Hc. reflexivity.
  - unfold gps_get_position. gps_ok Hc. reflexivity.
  - unfold gps_get_orientation. gps_ok Hc. reflexivity.
  - unfold gps_get_gyro_rate. gps_ok Hc. reflexivity.
  - unfold gps_get_accel. gps_ok Hc. reflexivity.
Qed.

(** C10.  On a port whose claim succeeds, when a second attitude read
    returns the same data as the one before it, a scalar position accessor
    called right after (or right before) [gps_get_position] returns the
    matching field of the struct. *)
Theorem gps_position_scalar_agrees_bulk port (w : world V) d :
  gps_claim port w = Guard.ClaimOk d ->
  let first := vexDeviceGpsAttitudeGet (device_info d) false (vex w) in
  let second := vexDeviceGpsAttitudeGet (device_info d) false (snd first) in
  fst second = fst first ->
  (exists p w1,
     gps_get_position port w = Some (p, w1) /\
     fst <$> gps_get_position_x port w1 = Some (position_s_x p) /\
     fst <$> gps_get_position_y port w1 = Some (position_s_y p)) /\
  (exists x w1 p,
     gps_get_position_x port w = Some (x, w1) /\
     fst <$> gps_get_position port w1 = Some p /\ x = position_s_x p) /\
  (exists y w1 p,
     gps_get_position_y port w = Some (y, w1) /\
     fst <$> gps_get_position port w1 = Some p /\ y = position_s_y p).
Proof.
  intros Hc first second Hsame. subst first second.
  set (h := device_info d) in *.
  assert (Hc1 : forall v, gps_claim port (sdk_step (CallAttitudeGet h false) v w) =
                          Guard.ClaimOk d)
    by (intros v; rewrite <- Hc; apply gps_claim_registry; reflexivity).
  repeat split.
  - rewrite (gps_get_position_ok port w d Hc). eexists _, _.
    split; [reflexivity|]. fold h.
    rewrite (gps_get_position_x_ok _ _ d (Hc1 _)), (gps_get_position_y_ok _ _ d (Hc1 _)).
    simpl. fold h. rewrite Hsame. split; reflexivity.
  - rewrite (gps_get_position_x_ok port w d Hc). eexists _, _, _.
    split; [reflexivity|]. fold h.
    rewrite (gps_get_position_ok _ _ d (Hc1 _)).
    simpl. fold h. rewrite Hsame. split; reflexivity.
  - rewrite (gps_get_position_y_ok port w d Hc). eexists _, _, _.
    split; [reflexivity|]. fold h.
    rewrite (gps_get_position_ok _ _ d (Hc1 _)).
    simpl. fold h. rewrite Hsame. split; reflexivity.
Qed.
End Success.

(** ** The SD-card wrappers *)

Section UsdFacts.
Context {S : Type} `{!UsdC S}.

(** C9.  [pros::usd::is_installed] returns what [usd_is_installed]
    returns and [pros::usd::list_files] what [usd_list_files] returns on
    the same arguments, result, buffer and state alike: the wrappers add
    no effect of their own. *)
Theorem usd_wrappers_forward :
  (forall s : S, Usd.is_installed s = usd_is_installed s) /\
  (forall (path buffer : list Byte.byte) (len : Z) (s : S),
     Usd.list_files path buffer len s = usd_list_files path buffer len s).
Proof. split; reflexivity. Qed.
End UsdFacts.

(** * The driver run on the simulated device

    Port 1 holds a free GPS sensor (handle 100), port 2 a motor, port 3 a
    GPS sensor another task holds claimed; ports 0 and 22 are out of range
    and port 5 is empty. *)

Section OnTheSimulatedDevice.
Local Existing Instance Sim.api.
Local Existing Instance Sim.consts.

Example sim_claims :
  gps_claim 1 Sim.w0 = Guard.ClaimOk (mkDevice 0 20 100 true) /\
  gps_claim 0 Sim.w0 = Guard.ClaimErr Guard.OutOfRange /\
  gps_claim 22 Sim.w0 = Guard.ClaimErr Guard.OutOfRange /\
  gps_claim 5 Sim.w0 = Guard.ClaimErr Guard.NotInitialized /\
  gps_claim 2 Sim.w0 = Guard.ClaimErr Guard.WrongDeviceType /\
  gps_claim 3 Sim.w0 = Guard.ClaimErr Guard.AlreadyClaimed.
Proof. repeat split. Qed.

(** The rates of the spec's table, as they reach the simulated sensor. *)
Example sim_data_rates :
  map (fun rate => (calls ∘ snd) <$> gps_set_data_rate 1 rate Sim.w0) [0; 5; 7; 12; 23] =
  map (fun q => Some [CallDataRateSet 100 q]) [5; 5; 5; 10; 20].
Proof. vm_compute. reflexivity. Qed.

Lemma gps_set_data_rate_quantizes_witness :
  gps_claim 1 Sim.w0 = Guard.ClaimOk (mkDevice 0 20 100 true) /\
  0 <= 23 < 2 ^ 32 /\
  gps_set_data_rate 1 23 Sim.w0 =
    Some (1, data_rate_forwarded (mkDevice 0 20 100 true) 20 Sim.w0) /\
  gps_set_data_rate 1 12 Sim.w0 =
    Some (1, data_rate_forwarded (mkDevice 0 20 100 true) 10 Sim.w0).
Proof.
  assert (Hc : gps_claim 1 Sim.w0 = Guard.ClaimOk (mkDevice 0 20 100 true)) by reflexivity.
  assert (Hr : 0 <= 23 < 2 ^ 32) by lia.
  split; [exact Hc|]. split; [exact Hr|]. split.
  - exact (proj1 (gps_set_data_rate_quantizes 1 Sim.w0 _ Hc) 23 Hr).
  - exact (proj1 (proj2 (proj2 (proj2 (proj2 (gps_set_data_rate_quantizes 1 Sim.w0 _ Hc)))))).
Defined.

Lemma gps_attitude_fan_out_witness :
  gps_claim 1 Sim.w0 = Guard.ClaimOk (mkDevice 0 20 100 true) /\
  fst (vexDeviceGpsAttitudeGet 100 false (vex Sim.w0)) =
    {| position_x := 1; position_y := 2; pitch := 3; roll := 4; yaw := 5 |}%float /\
  fst <$> gps_get_position 1 Sim.w0 =
    Some {| position_s_x := 1; position_s_y := 2 |}%float /\
  fst <$> gps_get_orientation 1 Sim.w0 =
    Some {| orientation_roll := 4; orientation_pitch := 3; orientation_yaw := 5 |}%float.
Proof.
  assert (Hc : gps_claim 1 Sim.w0 = Guard.ClaimOk (mkDevice 0 20 100 true)) by reflexivity.
  split; [exact Hc|]. split; [reflexivity|].
  exact (gps_attitude_fan_out 1 Sim.w0 _ Hc eq_refl).
Defined.

(** C3, as stated, fails: port 3 is held claimed by another task, the claim
    of [gps_get_offset 3] fails, the function returns its sentinel by the
    early [return rtv], and the claimed flag of port 3 is still true. *)
Lemma gps_get_offset_port_still_claimed :
  gps_get_offset 3 Sim.w0 =
    Some ({| position_s_x := infinity; position_s_y := infinity |}, Sim.w0) /\
  Registry.is_claimed (3 - 1) (registry Sim.w0) = true /\
  ~ (forall rtv w', gps_get_offset 3 Sim.w0 = Some (rtv, w') ->
                    Registry.is_claimed (3 - 1) (registry w') = false).
Proof.
  assert (Hrun : gps_get_offset 3 Sim.w0 =
            Some ({| position_s_x := infinity; position_s_y := infinity |}, Sim.w0))
    by reflexivity.
  split; [exact Hrun|]. split; [reflexivity|].
  intros Hall. specialize (Hall _ _ Hrun). discriminate Hall.
Qed.

Lemma gps_accessor_keeps_claimed_flag_witness :
  (Registry.is_claimed (1 - 1) (registry Sim.w0) = false /\
   exists v w',
     gps_run Gps_get_offset 1 Sim.w0 = Some (v, w') /\
     registry w' = registry Sim.w0 /\
     Registry.is_claimed (1 - 1) (registry w') = false) /\
  (gps_claim 3 Sim.w0 = Guard.ClaimErr Guard.AlreadyClaimed /\
   exists v w',
     gps_run Gps_get_offset 3 Sim.w0 = Some (v, w') /\
     registry w' = registry Sim.w0 /\
     v = gps_sentinel Gps_get_offset /\ w' = Sim.w0 /\
     Registry.is_claimed (3 - 1) (registry w') = true).
Proof.
  split.
  - split; [reflexivity|].
    destruct (gps_accessor_keeps_claimed_flag Gps_get_offset 1 Sim.w0)
      as (v & w' & Hrun & Hreg & _ & Hfree & _).
    exists v, w'. split; [exact Hrun|]. split; [exact Hreg|].
    exact (Hfree eq_refl).
  - split; [reflexivity|].
    destruct (gps_accessor_keeps_claimed_flag Gps_get_offset 3 Sim.w0)
      as (v & w' & Hrun & Hreg & _ & _ & _ & Hheld).
    destruct (Hheld eq_refl) as (Hv & Hw & Hflag).
    exists v, w'. split; [exact Hrun|]. split; [exact Hreg|].
    split; [exact Hv|]. split; [exact Hw | exact Hflag].
Defined.

Lemma gps_out_of_range_sentinel_witness :
  Registry.validate_port (0 - 1) = false /\
  gps_run Gps_get_error 0 Sim.w0 = Some (VDouble infinity, Sim.w0) /\
  Registry.validate_port (22 - 1) = false /\
  gps_run (Gps_set_data_rate 10) 22 Sim.w0 = Some (VInt 2147483647, Sim.w0).
Proof.
  split; [reflexivity|]. split.
  - exact (gps_out_of_range_sentinel Gps_get_error 0 Sim.w0 eq_refl).
  - split; [reflexivity|].
    exact (gps_out_of_range_sentinel (Gps_set_data_rate 10) 22 Sim.w0 eq_refl).
Defined.

Lemma gps_struct_sentinel_complete_witness :
  gps_claim 2 Sim.w0 = Guard.ClaimErr Guard.WrongDeviceType /\
  fst <$> gps_get_offset 2 Sim.w0 =
    Some {| position_s_x := infinity; position_s_y := infinity |} /\
  fst <$> gps_get_position_and_orientation 2 Sim.w0 =
    Some {| status_x := infinity; status_y := infinity; status_pitch := infinity;
            status_roll := infinity; status_yaw := infinity |} /\
  fst <$> gps_get_position 2 Sim.w0 =
    Some {| position_s_x := infinity; position_s_y := infinity |} /\
  fst <$> gps_get_orientation 2 Sim.w0 =
    Some {| orientation_pitch := infinity; orientation_roll := infinity;
            orientation_yaw := infinity |} /\
  fst <$> gps_get_gyro_rate 2 Sim.w0 =
    Some {| gyro_x := infinity; gyro_y := infinity; gyro_z := infinity |} /\
  fst <$> gps_get_accel 2 Sim.w0 =
    Some {| accel_x := infinity; accel_y := infinity; accel_z := infinity |}.
Proof.
  split; [reflexivity|].
  exact (gps_struct_sentinel_complete 2 Sim.w0 Guard.WrongDeviceType eq_refl).
Defined.

Lemma gps_no_sdk_call_without_claim_witness :
  (gps_claim 0 Sim.w0 = Guard.ClaimErr Guard.OutOfRange /\
   exists w', gps_run Gps_get_accel 0 Sim.w0 = Some (gps_sentinel Gps_get_accel, w') /\
              calls w' = [] /\ vex w' = Sim.dev0) /\
  (gps_claim 5 Sim.w0 = Guard.ClaimErr Guard.NotInitialized /\
   exists w', gps_run Gps_get_position 5 Sim.w0 = Some (gps_sentinel Gps_get_position, w') /\
              calls w' = [] /\ vex w' = Sim.dev0) /\
  (gps_claim 2 Sim.w0 = Guard.ClaimErr Guard.WrongDeviceType /\
   exists w', gps_run Gps_get_heading 2 Sim.w0 = Some (gps_sentinel Gps_get_heading, w') /\
              calls w' = [] /\ vex w' = Sim.dev0) /\
  (gps_claim 3 Sim.w0 = Guard.ClaimErr Guard.AlreadyClaimed /\
   exists w', gps_run (Gps_set_offset 3%float (-1.5)%float) 3 Sim.w0 =
                Some (gps_sentinel (Gps_set_offset 3%float (-1.5)%float), w') /\
              calls w' = [] /\ vex w' = Sim.dev0).
Proof.
  repeat split.
  - exact (gps_no_sdk_call_without_claim Gps_get_accel 0 Sim.w0 _ eq_refl).
  - exact (gps_no_sdk_call_without_claim Gps_get_position 5 Sim.w0 _ eq_refl).
  - exact (gps_no_sdk_call_without_claim Gps_get_heading 2 Sim.w0 _ eq_refl).
  - exact (gps_no_sdk_call_without_claim (Gps_set_offset 3%float (-1.5)%float) 3 Sim.w0 _ eq_refl).
Defined.

Lemma gps_offset_round_trip_witness :
  gps_claim 1 Sim.w0 = Guard.ClaimOk (mkDevice 0 20 100 true) /\
  fst (vexDeviceGpsOriginGet 100 infinity infinity
         (vexDeviceGpsOriginSet 100 3%float (-1.5)%float (vex Sim.w0))) = (3, -1.5)%float /\
  exists w1 w2,
    gps_set_offset 1 3%float (-1.5)%float Sim.w0 = Some (1, w1) /\
    gps_claim 1 w1 = Guard.ClaimOk (mkDevice 0 20 100 true) /\
    gps_get_offset 1 w1 = Some ({| position_s_x := 3; position_s_y := -1.5 |}%float, w2).
Proof.
  assert (Hc : gps_claim 1 Sim.w0 = Guard.ClaimOk (mkDevice 0 20 100 true)) by reflexivity.
  split; [exact Hc|]. split; [reflexivity|].
  exact (gps_offset_round_trip 1 3%float (-1.5)%float Sim.w0 _ Hc eq_refl).
Defined.

Lemma gps_bulk_single_read_witness :
  gps_claim 1 Sim.w0 = Guard.ClaimOk (mkDevice 0 20 100 true) /\
  gps_get_position_and_orientation 1 Sim.w0 =
    Some ({| status_x := 1; status_y := 2; status_pitch := 3; status_roll := 4;
             status_yaw := 5 |}%float,
          {| registry := Sim.reg0; vex := Sim.dev0; calls := [CallAttitudeGet 100 false] |}) /\
  gps_get_gyro_rate 1 Sim.w0 =
    Some ({| gyro_x := 0.5; gyro_y := 0.25; gyro_z := 0.125 |}%float,
          {| registry := Sim.reg0; vex := Sim.dev0; calls := [CallRawGyroGet 100] |}) /\
  gps_get_accel 1 Sim.w0 =
    Some ({| accel_x := 7; accel_y := 8; accel_z := 9 |}%float,
          {| registry := Sim.reg0; vex := Sim.dev0; calls := [CallRawAccelGet 100] |}).
Proof.
  assert (Hc : gps_claim 1 Sim.w0 = Guard.ClaimOk (mkDevice 0 20 100 true)) by reflexivity.
  split; [exact Hc|].
  pose proof (gps_bulk_single_read 1 Sim.w0 _ Hc) as (Hst & _ & _ & Hgy & Hac).
  split; [exact Hst|]. split; [exact Hgy | exact Hac].
Defined.

Lemma gps_position_scalar_agrees_bulk_witness :
  gps_claim 1 Sim.w0 = Guard.ClaimOk (mkDevice 0 20 100 true) /\
  fst (vexDeviceGpsAttitudeGet 100 false
         (snd (vexDeviceGpsAttitudeGet 100 false (vex Sim.w0)))) =
    fst (vexDeviceGpsAttitudeGet 100 false (vex Sim.w0)) /\
  exists p w1,
    gps_get_position 1 Sim.w0 = Some (p, w1) /\
    fst <$> gps_get_position_x 1 w1 = Some (position_s_x p) /\
    fst <$> gps_get_position_y 1 w1 = Some (position_s_y p).
Proof.
  assert (Hc : gps_claim 1 Sim.w0 = Guard.ClaimOk (mkDevice 0 20 100 true)) by reflexivity.
  split; [exact Hc|]. split; [reflexivity|].
  exact (proj1 (gps_position_scalar_agrees_bulk 1 Sim.w0 _ Hc eq_refl)).
Defined.
End OnTheSimulatedDevice.

(** * Further properties of the driver *)

(** ** What each accessor does on a claimed port *)

Section AccessorTable.
Context {V : Type} `{!VexDeviceGps V} `{!ProsConsts}.

Lemma gps_get_error_ok port (w : world V) d :
  gps_claim port w = Guard.ClaimOk d ->
  gps_get_error port w =
    let rd := vexDeviceGpsErrorGet (device_info d) (vex w) in
    Some (fst rd, sdk_step (CallErrorGet (device_info d)) (snd rd) w).
Proof. intros Hc. unfold gps_get_error. gps_ok Hc. reflexivity. Qed.

Lemma gps_get_heading_ok port (w : world V) d :
  gps_claim port w = Guard.ClaimOk d ->
  gps_get_heading port w =
    let rd := vexDeviceGpsDegreesGet (device_info d) (vex w) in
    Some (fst rd, sdk_step (CallDegreesGet (device_info d)) (snd rd) w).
Proof. intros Hc. unfold gps_get_heading. gps_ok Hc. reflexivity. Qed.

Lemma gps_get_heading_raw_ok port (w : world V) d :
  gps_claim port w = Guard.ClaimOk d ->
  gps_get_heading_raw port w =
    let rd := vexDeviceGpsHeadingGet (device_info d) (vex w) in
    Some (fst rd, sdk_step (CallHeadingGet (device_info d)) (snd rd) w).
Proof. intros Hc. unfold gps_get_heading_raw. gps_ok Hc. reflexivity. Qed.

Lemma gps_get_pitch_ok port (w : world V) d :
  gps_claim port w = Guard.ClaimOk d ->
  gps_get_pitch port w =
    let rd := vexDeviceGpsAttitudeGet (device_info d) false (vex w) in
    Some (pitch (fst rd), sdk_step (CallAttitudeGet (device_info d) false) (snd rd) w).
Proof. intros Hc. unfold gps_get_pitch. gps_ok Hc. reflexivity. Qed.

Lemma gps_get_roll_ok port (w : world V) d :
  gps_claim port w = Guard.ClaimOk d ->
  gps_get_roll port w =
    let rd := vexDeviceGpsAttitudeGet (device_info d) false (vex w) in
    Some (roll (fst rd), sdk_step (CallAttitudeGet (device_info d) false) (snd rd) w).
Proof. intros Hc. unfold gps_get_roll. gps_ok Hc. reflexivity. Qed.

Lemma gps_get_yaw_ok port (w : world V) d :
  gps_claim port w = Guard.ClaimOk d ->
  gps_get_yaw port w =
    let rd := vexDeviceGpsAttitudeGet (device_info d) false (vex w) in
    Some (yaw (fst rd), sdk_step (CallAttitudeGet (device_info d) false) (snd rd) w).
Proof. intros Hc. unfold gps_get_yaw. gps_ok Hc. reflexivity. Qed.

Lemma gps_get_position_and_orientation_ok port (w : world V) d :
  gps_claim port w = Guard.ClaimOk d ->
  gps_get_position_and_orientation port w =
    let rd := vexDeviceGpsAttitudeGet (device_info d) false (vex w) in
    Some ({| status_x := position_x (fst rd); status_y := position_y (fst rd);
             status_pitch := pitch (fst rd); status_roll := roll (fst rd);
             status_yaw := yaw (fst rd) |},
          sdk_step (CallAttitudeGet (device_info d) false) (snd rd) w).
Proof. intros Hc. unfold gps_get_position_and_orientation. gps_ok Hc. reflexivity. Qed.

Lemma gps_get_gyro_rate_ok port (w : world V) d :
  gps_claim port w = Guard.ClaimOk d ->
  gps_get_gyro_rate port w =
    let rd := vexDeviceGpsRawGyroGet (device_info d) (vex w) in
    Some ({| gyro_x := raw_x (fst rd); gyro_y := raw_y (fst rd); gyro_z := raw_z (fst rd) |},
          sdk_step (CallRawGyroGet (device_info d)) (snd rd) w).
Proof. intros Hc. unfold gps_get_gyro_rate. gps_ok Hc. reflexivity. Qed.

Lemma gps_get_gyro_rate_x_ok port (w : world V) d :
  gps_claim port w = Guard.ClaimOk d ->
  gps_get_gyro_rate_x port w =
    let rd := vexDeviceGpsRawGyroGet (device_info d) (vex w) in
    Some (raw_x (fst rd), sdk_step (CallRawGyroGet (device_info d)) (snd rd) w).
Proof. intros Hc. unfold gps_get_gyro_rate_x. gps_ok Hc. reflexivity. Qed.

Lemma gps_get_gyro_rate_y_ok port (w : world V) d :
  gps_claim port w = Guard.ClaimOk d ->
  gps_get_gyro_rate_y port w =
    let rd := vexDeviceGpsRawGyroGet (device_info d) (vex w) in
    Some (raw_y (fst rd), sdk_step (CallRawGyroGet (device_info d)) (snd rd) w).
Proof. intros Hc. unfold gps_get_gyro_rate_y. gps_ok Hc. reflexivity. Qed.

Lemma gps_get_gyro_rate_z_ok port (w : world V) d :
  gps_claim port w = Guard.ClaimOk d ->
  gps_get_gyro_rate_z port w =
    let rd := vexDeviceGpsRawGyroGet (device_info d) (vex w) in
    Some (raw_z (fst rd), sdk_step (CallRawGyroGet (device_info d)) (snd rd) w).
Proof. intros Hc. unfold gps_get_gyro_rate_z. gps_ok Hc. reflexivity. Qed.

Lemma gps_get_accel_ok port (w : world V) d :
  gps_claim port w = Guard.ClaimOk d ->
  gps_get_accel port w =
    let rd := vexDeviceGpsRawAccelGet (device_info d) (vex w) in
    Some ({| accel_x := raw_x (fst rd); accel_y := raw_y (fst rd); accel_z := raw_z (fst rd) |},
          sdk_step (CallRawAccelGet (device_info d)) (snd rd) w).
Proof. intros Hc. unfold gps_get_accel. gps_ok Hc. reflexivity. Qed.

Lemma gps_get_accel_x_ok port (w : world V) d :
  gps_claim port w = Guard.ClaimOk d ->
  gps_get_accel_x port w =
    let rd := vexDeviceGpsRawAccelGet (device_info d) (vex w) in
    Some (raw_x (fst rd), sdk_step (CallRawAccelGet (device_info d)) (snd rd) w).
Proof. intros Hc. unfold gps_get_accel_x. gps_ok Hc. reflexivity. Qed.

Lemma gps_get_accel_y_ok port (w : world V) d :
  gps_claim port w = Guard.ClaimOk d ->
  gps_get_accel_y port w =
    let rd := vexDeviceGpsRawAccelGet (device_info d) (vex w) in
    Some (raw_y (fst rd), sdk_step (CallRawAccelGet (device_info d)) (snd rd) w).
Proof. intros Hc. unfold gps_get_accel_y. gps_ok Hc. reflexivity. Qed.

Lemma gps_get_accel_z_ok port (w : world V) d :
  gps_claim port w = Guard.ClaimOk d ->
  gps_get_accel_z port w =
    let rd := vexDeviceGpsRawAccelGet (device_info d) (vex w) in
    Some (raw_z (fst rd), sdk_step (CallRawAccelGet (device_info d)) (snd rd) w).
Proof. intros Hc. unfold gps_get_accel_z. gps_ok Hc. reflexivity. Qed.

Lemma gps_set_position_ok port x y hd (w : world V) d :
  gps_claim port w = Guard.ClaimOk d ->
  gps_set_position port x y hd w =
    Some (PROS_SUCCESS,
          sdk_step (CallInitialPositionSet (device_info d) x y hd)
                   (vexDeviceGpsInitialPositionSet (device_info d) x y hd (vex w)) w).
Proof. intros Hc. unfold gps_set_position. gps_ok Hc. reflexivity. Qed.

Lemma gps_initialize_full_ok port xi yi hi xo yo (w : world V) d :
  gps_claim port w = Guard.ClaimOk d ->
  gps_initialize_full port xi yi hi xo yo w =
    Some (PROS_SUCCESS,
          sdk_step (CallInitialPositionSet (device_info d) xi yi hi)
            (vexDeviceGpsInitialPositionSet (device_info d) xi yi hi
               (vexDeviceGpsOriginSet (device_info d) xo yo (vex w)))
            (sdk_step (CallOriginSet (device_info d) xo yo)
               (vexDeviceGpsOriginSet (device_info d) xo yo (vex w)) w)).
Proof.
  intros Hc. unfold gps_initialize_full. gps_ok Hc. reflexivity.
Qed.

(** After an SDK call the registry is as before, so the claim is too. *)
Lemma gps_claim_sdk_step port k v (w : world V) :
  gps_claim port (sdk_step k v w) = gps_claim port w.
Proof. apply gps_claim_registry. reflexivity. Qed.
End AccessorTable.

(** ** More on the data rate *)

Section DataRateMore.
Context {V : Type} `{!VexDeviceGps V} `{!ProsConsts}.

(** The arithmetic of the rounding: for a rate of at least 5, the rounded
    rate is the multiple of 5 at or just below it. *)
Lemma round_down_5 rate :
  5 <= rate ->
  let q := rate - rate mod 5 in
  5 <= q /\ q mod 5 = 0 /\ q <= rate /\ rate - q < 5.
Proof.
  intros Hr q. subst q.
  pose proof (Z.mod_pos_bound rate 5 ltac:(lia)) as Hm.
  pose proof (Z.div_mod rate 5 ltac:(lia)) as Hd.
  assert (Hq : rate - rate mod 5 = 5 * (rate / 5)) by lia.
  assert (1 <= rate / 5) by (apply Z.div_le_lower_bound; lia).
  repeat split; try lia.
  rewrite Hq, Z.mul_comm. apply Z.mod_mul. lia.
Qed.

(** X1.  On a claimed port, the rate [gps_set_data_rate] hands the SDK is
    always a multiple of 5, at least 5, still a [uint32_t], never above the
    larger of the requested rate and 5, and less than 5 below it. *)
Theorem gps_set_data_rate_bounds port rate (w : world V) d :
  gps_claim port w = Guard.ClaimOk d ->
  0 <= rate < 2 ^ 32 ->
  exists q,
    gps_set_data_rate port rate w = Some (PROS_SUCCESS, data_rate_forwarded d q w) /\
    5 <= q < 2 ^ 32 /\ q mod 5 = 0 /\
    q <= Z.max rate 5 /\ Z.max rate 5 - q < 5.
Proof.
  intros Hc Hr.
  rewrite (gps_set_data_rate_ok port rate w d Hc Hr).
  eexists. split; [reflexivity|].
  destruct (rate <? 5) eqn:Hlt.
  - apply Z.ltb_lt in Hlt. repeat split; try reflexivity; lia.
  - apply Z.ltb_ge in Hlt.
    destruct (round_down_5 rate Hlt) as (H5 & Hmod & Hle & Hgap).
    repeat split; try assumption; lia.
Qed.

(** X2.  On a claimed port, asking again for the rate that was just
    forwarded forwards that same rate: the rounding is idempotent. *)
Theorem gps_set_data_rate_idempotent port rate (w : world V) d :
  gps_claim port w = Guard.ClaimOk d ->
  0 <= rate < 2 ^ 32 ->
  exists q w1,
    gps_set_data_rate port rate w = Some (PROS_SUCCESS, w1) /\
    w1 = data_rate_forwarded d q w /\
    gps_set_data_rate port q w1 = Some (PROS_SUCCESS, data_rate_forwarded d q w1).
Proof.
  intros Hc Hr.
  rewrite (gps_set_data_rate_ok port rate w d Hc Hr).
  set (q := if rate <? 5 then 5 else rate - rate mod 5).
  assert (Hq : 5 <= q < 2 ^ 32 /\ q mod 5 = 0).
  { subst q. destruct (rate <? 5) eqn:Hlt.
    - split; [lia | reflexivity].
    - apply Z.ltb_ge in Hlt.
      destruct (round_down_5 rate Hlt) as (H5 & Hmod & Hle & _).
      split; [lia | assumption]. }
  destruct Hq as (Hqr & Hqm).
  exists q, (data_rate_forwarded d q w).
  split; [reflexivity|]. split; [reflexivity|].
  assert (Hc1 : gps_claim port (data_rate_forwarded d q w) = Guard.ClaimOk d)
    by (unfold data_rate_forwarded; rewrite gps_claim_sdk_step; exact Hc).
  rewrite (gps_set_data_rate_ok port q _ d Hc1 ltac:(lia)).
  assert (Hge : (q <? 5) = false) by (apply Z.ltb_ge; lia).
  rewrite Hge, Hqm, Z.sub_0_r. reflexivity.
Qed.

(** X3.  On a claimed port, the forwarded rate is monotone in the requested
    rate: a larger request never reaches the SDK as a smaller rate. *)
Theorem gps_set_data_rate_monotone port rate1 rate2 (w1 w2 : world V) d1 d2 :
  gps_claim port w1 = Guard.ClaimOk d1 ->
  gps_claim port w2 = Guard.ClaimOk d2 ->
  0 <= rate1 <= rate2 ->
  rate2 < 2 ^ 32 ->
  exists q1 q2,
    gps_set_data_rate port rate1 w1 = Some (PROS_SUCCESS, data_rate_forwarded d1 q1 w1) /\
    gps_set_data_rate port rate2 w2 = Some (PROS_SUCCESS, data_rate_forwarded d2 q2 w2) /\
    q1 <= q2.
Proof.
  intros Hc1 Hc2 Hr Hmax.
  rewrite (gps_set_data_rate_ok port rate1 w1 d1 Hc1 ltac:(lia)).
  rewrite (gps_set_data_rate_ok port rate2 w2 d2 Hc2 ltac:(lia)).
  eexists _, _. split; [reflexivity|]. split; [reflexivity|].
  destruct (rate1 <? 5) eqn:H1; destruct (rate2 <? 5) eqn:H2;
    rewrite ?Z.ltb_lt, ?Z.ltb_ge in *.
  - lia.
  - destruct (round_down_5 rate2 H2) as (H5 & _). lia.
  - lia.
  - pose proof (Z.div_mod rate1 5 ltac:(lia)) as Hd1.
    pose proof (Z.div_mod rate2 5 ltac:(lia)) as Hd2.
    pose proof (Z.div_le_mono rate1 rate2 5 ltac:(lia) ltac:(lia)) as Hdiv.
    lia.
Qed.
End DataRateMore.

(** ** Writing to the sensor *)

Section Writers.
Context {V : Type} `{!VexDeviceGps V} `{!ProsConsts}.

(** X4.  [gps_initialize_full] does what [gps_set_offset] followed by
    [gps_set_position] does, in every world: the same return value, the
    same SDK calls in the same order (origin first, then initial position),
    the same final world; on a port that cannot be claimed, both return
    [PROS_ERR] and do nothing. *)
Theorem gps_initialize_full_is_offset_then_position
    port xi yi hi xo yo (w : world V) :
  gps_initialize_full port xi yi hi xo yo w =
  gps_set_offset_then_position port xi yi hi xo yo w.
Proof.
  unfold gps_set_offset_then_position, bind.
  destruct (gps_claim port w) as [d|e] eqn:Hc.
  - rewrite (gps_initialize_full_ok port xi yi hi xo yo w d Hc).
    rewrite (gps_set_offset_ok port xo yo w d Hc).
    rewrite (gps_set_position_ok port xi yi hi _ d
               ltac:(rewrite gps_claim_sdk_step; exact Hc)).
    reflexivity.
  - unfold gps_claim in Hc.
    unfold gps_initialize_full, gps_set_offset, gps_set_position, claim_port_i.
    rewrite !(claim_port_err PROS_ERR _ _ _ _ _ Hc). reflexivity.
Qed.

Lemma app_one_neq {A : Type} (l m : list A) (k : A) : l ++ k :: m <> l.
Proof.
  intros Heq. apply (f_equal (@length A)) in Heq.
  rewrite length_app in Heq. simpl in Heq. lia.
Qed.

(** X5.  Where [PROS_SUCCESS] and [PROS_ERR] differ, the status the four
    writing functions return tells the caller what happened: it is
    [PROS_SUCCESS] exactly when the SDK was called, and [PROS_ERR] exactly
    when the call changed nothing at all. *)
Theorem gps_status_reports_write c port (w : world V) :
  gps_returns_status c = true ->
  PROS_SUCCESS <> PROS_ERR ->
  exists r w',
    gps_run c port w = Some (VInt r, w') /\
    (r = PROS_SUCCESS <-> calls w' <> calls w) /\
    (r = PROS_ERR <-> w' = w).
Proof.
  intros Hst Hne.
  destruct (gps_claim port w) as [d|e] eqn:Hc.
  - assert (Hrun : exists vx k l,
              gps_run c port w =
                Some (VInt PROS_SUCCESS,
                      {| registry := registry w; vex := vx; calls := calls w ++ k :: l |})).
    { destruct c; try discriminate Hst; gps_unfold; unfold bind at 1; gps_ok Hc;
        do 3 eexists; reflexivity. }
    destruct Hrun as (vx & k & l & Hrun).
    eexists _, _. split; [exact Hrun|]. simpl. split.
    + split; [intros _; apply app_one_neq | reflexivity].
    + split; [intros Heq; congruence|].
      intros Heq. apply (f_equal calls) in Heq. simpl in Heq.
      exfalso. exact (app_one_neq _ _ _ Heq).
  - exists PROS_ERR, w. split.
    + rewrite (gps_run_claim_err c port w e Hc).
      destruct c; try discriminate Hst; reflexivity.
    + split; split; congruence.
Qed.

(** X6.  [gps_get_offset] on a claimed port whose SDK origin read writes
    nothing through its out-pointers returns the struct with [PROS_ERR_F] in
    both fields: [x] and [y] are initialised to [PROS_ERR_F] before the
    call. *)
Theorem gps_get_offset_unwritten port (w : world V) d :
  gps_claim port w = Guard.ClaimOk d ->
  (forall x y, fst (vexDeviceGpsOriginGet (device_info d) x y (vex w)) = (x, y)) ->
  fst <$> gps_get_offset port w =
    Some {| position_s_x := PROS_ERR_F; position_s_y := PROS_ERR_F |}.
Proof.
  intros Hc Hsilent.
  rewrite (gps_get_offset_ok port w d Hc). simpl.
  rewrite Hsilent. reflexivity.
Qed.
End Writers.

(** ** Scalar accessors against the bulk ones *)

Section ScalarsAndBulk.
Context {V : Type} `{!VexDeviceGps V} `{!ProsConsts}.

(** X7.  On a claimed port, when a second attitude read returns the same
    data as the one before it, [gps_get_pitch], [gps_get_roll] and
    [gps_get_yaw] called right after [gps_get_orientation] return the pitch,
    roll and yaw fields of its struct. *)
Theorem gps_orientation_scalars_agree_bulk port (w : world V) d :
  gps_claim port w = Guard.ClaimOk d ->
  let first := vexDeviceGpsAttitudeGet (device_info d) false (vex w) in
  let second := vexDeviceGpsAttitudeGet (device_info d) false (snd first) in
  fst second = fst first ->
  exists o w1,
    gps_get_orientation port w = Some (o, w1) /\
    fst <$> gps_get_pitch port w1 = Some (orientation_pitch o) /\
    fst <$> gps_get_roll port w1 = Some (orientation_roll o) /\
    fst <$> gps_get_yaw port w1 = Some (orientation_yaw o).
Proof.
  intros Hc first second Hsame. subst first second.
  rewrite (gps_get_orientation_ok port w d Hc). eexists _, _.
  split; [reflexivity|].
  rewrite (gps_get_pitch_ok _ _ d ltac:(rewrite gps_claim_sdk_step; exact Hc)).
  rewrite (gps_get_roll_ok _ _ d ltac:(rewrite gps_claim_sdk_step; exact Hc)).
  rewrite (gps_get_yaw_ok _ _ d ltac:(rewrite gps_claim_sdk_step; exact Hc)).
  simpl. rewrite Hsame. repeat split.
Qed.

(** X8.  On a claimed port, when a second raw gyro read returns the same
    data as the one before it, [gps_get_gyro_rate_x], [_y] and [_z] called
    right after [gps_get_gyro_rate] return the x, y and z fields of its
    struct. *)
Theorem gps_gyro_scalars_agree_bulk port (w : world V) d :
  gps_claim port w = Guard.ClaimOk d ->
  let first := vexDeviceGpsRawGyroGet (device_info d) (vex w) in
  let second := vexDeviceGpsRawGyroGet (device_info d) (snd first) in
  fst second = fst first ->
  exists g w1,
    gps_get_gyro_rate port w = Some (g, w1) /\
    fst <$> gps_get_gyro_rate_x port w1 = Some (gyro_x g) /\
    fst <$> gps_get_gyro_rate_y port w1 = Some (gyro_y g) /\
    fst <$> gps_get_gyro_rate_z port w1 = Some (gyro_z g).
Proof.
  intros Hc first second Hsame. subst first second.
  rewrite (gps_get_gyro_rate_ok port w d Hc). eexists _, _.
  split; [reflexivity|].
  rewrite (gps_get_gyro_rate_x_ok _ _ d ltac:(rewrite gps_claim_sdk_step; exact Hc)).
  rewrite (gps_get_gyro_rate_y_ok _ _ d ltac:(rewrite gps_claim_sdk_step; exact Hc)).
  rewrite (gps_get_gyro_rate_z_ok _ _ d ltac:(rewrite gps_claim_sdk_step; exact Hc)).
  simpl. rewrite Hsame. repeat split.
Qed.

(** X9.  On a claimed port, when a second raw accelerometer read returns
    the same data as the one before it, [gps_get_accel_x], [_y] and [_z]
    called right after [gps_get_accel] return the x, y and z fields of its
    struct. *)
Theorem gps_accel_scalars_agree_bulk port (w : world V) d :
  gps_claim port w = Guard.ClaimOk d ->
  let first := vexDeviceGpsRawAccelGet (device_info d) (vex w) in
  let second := vexDeviceGpsRawAccelGet (device_info d) (snd first) in
  fst second = fst first ->
  exists a w1,
    gps_get_accel port w = Some (a, w1) /\
    fst <$> gps_get_accel_x port w1 = Some (accel_x a) /\
    fst <$> gps_get_accel_y port w1 = Some (accel_y a) /\
    fst <$> gps_get_accel_z port w1 = Some (accel_z a).
Proof.
  intros Hc first second Hsame. subst first second.
  rewrite (gps_get_accel_ok port w d Hc). eexists _, _.
  split; [reflexivity|].
  rewrite (gps_get_accel_x_ok _ _ d ltac:(rewrite gps_claim_sdk_step; exact Hc)).
  rewrite (gps_get_accel_y_ok _ _ d ltac:(rewrite gps_claim_sdk_step; exact Hc)).
  rewrite (gps_get_accel_z_ok _ _ d ltac:(rewrite gps_claim_sdk_step; exact Hc)).
  simpl. rewrite Hsame. repeat split.
Qed.

(** X10.  Called in the same world, whether the claim succeeds or not,
    [gps_get_position_and_orientation] returns exactly the fields that
    [gps_get_position] and [gps_get_orientation] return, and all three
    leave the same world behind. *)
Theorem gps_status_is_position_and_orientation port (w : world V) :
  exists s p o w',
    gps_get_position_and_orientation port w = Some (s, w') /\
    gps_get_position port w = Some (p, w') /\
    gps_get_orientation port w = Some (o, w') /\
    status_x s = position_s_x p /\ status_y s = position_s_y p /\
    status_pitch s = orientation_pitch o /\ status_roll s = orientation_roll o /\
    status_yaw s = orientation_yaw o.
Proof.
  destruct (gps_claim port w) as [d|e] eqn:Hc.
  - rewrite (gps_get_position_and_orientation_ok port w d Hc),
      (gps_get_position_ok port w d Hc), (gps_get_orientation_ok port w d Hc).
    eexists _, _, _, _. repeat split.
  - unfold gps_claim in Hc.
    unfold gps_get_position_and_orientation, gps_get_position, gps_get_orientation, bind.
    rewrite (claim_port_try_err _ _ _ _ Hc). simpl.
    eexists _, _, _, _. repeat split.
Qed.

(** X11.  On a claimed port each of the fourteen scalar accessors makes
    exactly one SDK call, a read, and returns what that read gave for its
    quantity: [gps_get_heading] reads [vexDeviceGpsDegreesGet],
    [gps_get_heading_raw] reads [vexDeviceGpsHeadingGet], the position and
    angle accessors one field of the attitude, the gyro and accelerometer
    accessors one field of the raw data. *)
Theorem gps_scalar_single_read port (w : world V) d :
  gps_claim port w = Guard.ClaimOk d ->
  let h := device_info d in
  let after (k : vex_call) (v : V) : world V :=
    {| registry := registry w; vex := v; calls := calls w ++ [k] |} in
  let att := vexDeviceGpsAttitudeGet h false (vex w) in
  let gyr := vexDeviceGpsRawGyroGet h (vex w) in
  let acc := vexDeviceGpsRawAccelGet h (vex w) in
  let err := vexDeviceGpsErrorGet h (vex w) in
  let deg := vexDeviceGpsDegreesGet h (vex w) in
  let hdg := vexDeviceGpsHeadingGet h (vex w) in
  gps_get_error port w = Some (fst err, after (CallErrorGet h) (snd err)) /\
  gps_get_position_x port w =
    Some (position_x (fst att), after (CallAttitudeGet h false) (snd att)) /\
  gps_get_position_y port w =
    Some (position_y (fst att), after (CallAttitudeGet h false) (snd att)) /\
  gps_get_pitch port w = Some (pitch (fst att), after (CallAttitudeGet h false) (snd att)) /\
  gps_get_roll port w = Some (roll (fst att), after (CallAttitudeGet h false) (snd att)) /\
  gps_get_yaw port w = Some (yaw (fst att), after (CallAttitudeGet h false) (snd att)) /\
  gps_get_heading port w = Some (fst deg, after (CallDegreesGet h) (snd deg)) /\
  gps_get_heading_raw port w = Some (fst hdg, after (CallHeadingGet h) (snd hdg)) /\
  gps_get_gyro_rate_x port w = Some (raw_x (fst gyr), after (CallRawGyroGet h) (snd gyr)) /\
  gps_get_gyro_rate_y port w = Some (raw_y (fst gyr), after (CallRawGyroGet h) (snd gyr)) /\
  gps_get_gyro_rate_z port w = Some (raw_z (fst gyr), after (CallRawGyroGet h) (snd gyr)) /\
  gps_get_accel_x port w = Some (raw_x (fst acc), after (CallRawAccelGet h) (snd acc)) /\
  gps_get_accel_y port w = Some (raw_y (fst acc), after (CallRawAccelGet h) (snd acc)) /\
  gps_get_accel_z port w = Some (raw_z (fst acc), after (CallRawAccelGet h) (snd acc)).
Proof.
  intros Hc h after att gyr acc err deg hdg.
  subst h after att gyr acc err deg hdg. cbv beta.
  rewrite (gps_get_error_ok port w d Hc), (gps_get_position_x_ok port w d Hc),
    (gps_get_position_y_ok port w d Hc), (gps_get_pitch_ok port w d Hc),
    (gps_get_roll_ok port w d Hc), (gps_get_yaw_ok port w d Hc),
    (gps_get_heading_ok port w d Hc), (gps_get_heading_raw_ok port w d Hc),
    (gps_get_gyro_rate_x_ok port w d Hc), (gps_get_gyro_rate_y_ok port w d Hc),
    (gps_get_gyro_rate_z_ok port w d Hc), (gps_get_accel_x_ok port w d Hc),
    (gps_get_accel_y_ok port w d Hc), (gps_get_accel_z_ok port w d Hc).
  repeat split.
Qed.
End ScalarsAndBulk.

(** ** Which device a call reaches, and sequences of calls *)

Section Isolation.
Context {V : Type} `{!VexDeviceGps V} `{!ProsConsts}.

(** On a claimed port, every SDK call an accessor makes is made on the
    claimed device. *)
Lemma gps_run_claim_ok_handles c port (w : world V) d :
  gps_claim port w = Guard.ClaimOk d ->
  exists (v : gps_value) (vx : V) (l : list vex_call),
    gps_run c port w =
      Some (v, {| registry := registry w; vex := vx; calls := calls w ++ l |}) /\
    Forall (fun k => call_handle k = device_info d) l.
Proof.
  intros Hc.
  destruct c; gps_unfold; unfold bind at 1; gps_ok Hc;
    do 3 eexists; (split; [reflexivity | repeat constructor]).
Qed.

(** The claimed device is the one registered at index [port - 1]. *)
Lemma gps_claim_ok_lookup port (w : world V) d :
  gps_claim port w = Guard.ClaimOk d ->
  device_info <$> Registry.lookup (port - 1) (registry w) = Some (device_info d).
Proof.
  unfold gps_claim. destruct (Guard.claim _ _ _) as [res r'] eqn:Hcl. simpl.
  intros ->. apply claim_ok_inv in Hcl as (Hv & d0 & Hl & _ & _ & -> & _).
  unfold Registry.lookup. rewrite Hv, Hl. reflexivity.
Qed.

(** X12.  Ports are one-based and an accessor only ever reaches its own
    port's device: whatever the accessor and the world, it returns, the
    call log only grows, and every SDK call it adds carries the handle of
    the device registered at index [port - 1]. *)
Theorem gps_calls_reach_own_device c port (w : world V) :
  exists v w' l,
    gps_run c port w = Some (v, w') /\
    calls w' = calls w ++ l /\
    Forall (fun k => device_info <$> Registry.lookup (port - 1) (registry w) =
                     Some (call_handle k)) l.
Proof.
  destruct (gps_claim port w) as [d|e] eqn:Hc.
  - destruct (gps_run_claim_ok_handles c port w d Hc) as (v & vx & l & Hrun & Hall).
    eexists _, _, l. split; [exact Hrun|]. split; [reflexivity|].
    rewrite (gps_claim_ok_lookup port w d Hc).
    eapply Forall_impl; [exact Hall|]. simpl. intros k ->. reflexivity.
  - exists (gps_sentinel c), w, []. split; [apply (gps_run_claim_err c port w e Hc)|].
    split; [symmetry; apply app_nil_r | constructor].
Qed.

(** One call: it returns, the registry is given back, the log grows. *)
Lemma gps_calls_step c port (w : world V) :
  exists v w' l,
    gps_run c port w = Some (v, w') /\
    registry w' = registry w /\
    calls w' = calls w ++ l.
Proof.
  destruct (gps_claim port w) as [d|e] eqn:Hc.
  - destruct (gps_run_claim_ok c port w d Hc) as (v & vx & k & l & Hrun).
    eexists _, _, (k :: l). split; [exact Hrun|]. split; reflexivity.
  - exists (gps_sentinel c), w, []. split; [apply (gps_run_claim_err c port w e Hc)|].
    split; [reflexivity | symmetry; apply app_nil_r].
Qed.

(** X13.  A task making any sequence of accessor calls, on any ports, gets
    a value back from each of them (no call faults), and afterwards the
    registry is what it was before the first call: the claimed flag of every
    port is what it was (a port that was free is free, a port another holder
    had claimed is still claimed) and every claim has the outcome it would
    have had before.  The call log has only grown. *)
Theorem gps_run_all_returns_ports cs (w : world V) :
  exists vs w' l,
    gps_run_all cs w = Some (vs, w') /\
    length vs = length cs /\
    registry w' = registry w /\
    calls w' = calls w ++ l /\
    (forall idx, Registry.is_claimed idx (registry w') =
                 Registry.is_claimed idx (registry w)) /\
    forall port, gps_claim port w' = gps_claim port w.
Proof.
  revert w. induction cs as [|[c port] rest IH]; intros w.
  - exists [], w, []. simpl. unfold ret.
    repeat split. symmetry; apply app_nil_r.
  - destruct (gps_calls_step c port w) as (v & w1 & l1 & Hrun & Hreg1 & Hlog1).
    destruct (IH w1) as (vs & w2 & l2 & Hall & Hlen & Hreg2 & Hlog2 & _ & _).
    exists (v :: vs), w2, (l1 ++ l2).
    simpl. unfold bind. rewrite Hrun, Hall. unfold ret.
    split; [reflexivity|]. split; [simpl; congruence|].
    assert (Hreg : registry w2 = registry w) by congruence.
    split; [exact Hreg|].
    split; [rewrite Hlog2, Hlog1, app_assoc; reflexivity|].
    split; [intros idx; rewrite Hreg; reflexivity|].
    intros p. apply gps_claim_registry. exact Hreg.
Qed.
End Isolation.

(** * The further properties on the simulated device *)

Section MoreOnTheSimulatedDevice.
Local Existing Instance Sim.api.
Local Existing Instance Sim.consts.

Lemma gps_set_data_rate_bounds_witness :
  gps_claim 1 Sim.w0 = Guard.ClaimOk (mkDevice 0 20 100 true) /\
  0 <= 4294967295 < 2 ^ 32 /\
  exists q,
    gps_set_data_rate 1 4294967295 Sim.w0 =
      Some (1, data_rate_forwarded (mkDevice 0 20 100 true) q Sim.w0) /\
    5 <= q < 2 ^ 32 /\ q mod 5 = 0 /\
    q <= Z.max 4294967295 5 /\ Z.max 4294967295 5 - q < 5.
Proof.
  assert (Hc : gps_claim 1 Sim.w0 = Guard.ClaimOk (mkDevice 0 20 100 true)) by reflexivity.
  assert (Hr : 0 <= 4294967295 < 2 ^ 32) by lia.
  split; [exact Hc|]. split; [exact Hr|].
  exact (gps_set_data_rate_bounds 1 4294967295 Sim.w0 _ Hc Hr).
Defined.

Lemma gps_set_data_rate_idempotent_witness :
  gps_claim 1 Sim.w0 = Guard.ClaimOk (mkDevice 0 20 100 true) /\
  0 <= 23 < 2 ^ 32 /\
  exists q w1,
    gps_set_data_rate 1 23 Sim.w0 = Some (1, w1) /\
    w1 = data_rate_forwarded (mkDevice 0 20 100 true) q Sim.w0 /\
    gps_set_data_rate 1 q w1 =
      Some (1, data_rate_forwarded (mkDevice 0 20 100 true) q w1).
Proof.
  assert (Hc : gps_claim 1 Sim.w0 = Guard.ClaimOk (mkDevice 0 20 100 true)) by reflexivity.
  assert (Hr : 0 <= 23 < 2 ^ 32) by lia.
  split; [exact Hc|]. split; [exact Hr|].
  exact (gps_set_data_rate_idempotent 1 23 Sim.w0 _ Hc Hr).
Defined.

Lemma gps_set_data_rate_monotone_witness :
  gps_claim 1 Sim.w0 = Guard.ClaimOk (mkDevice 0 20 100 true) /\
  0 <= 9 <= 10 /\ 10 < 2 ^ 32 /\
  exists q1 q2,
    gps_set_data_rate 1 9 Sim.w0 =
      Some (1, data_rate_forwarded (mkDevice 0 20 100 true) q1 Sim.w0) /\
    gps_set_data_rate 1 10 Sim.w0 =
      Some (1, data_rate_forwarded (mkDevice 0 20 100 true) q2 Sim.w0) /\
    q1 <= q2.
Proof.
  assert (Hc : gps_claim 1 Sim.w0 = Guard.ClaimOk (mkDevice 0 20 100 true)) by reflexivity.
  assert (Hr : 0 <= 9 <= 10) by lia.
  assert (Hm : 10 < 2 ^ 32) by reflexivity.
  split; [exact Hc|]. split; [exact Hr|]. split; [exact Hm|].
  exact (gps_set_data_rate_monotone 1 9 10 Sim.w0 Sim.w0 _ _ Hc Hc Hr Hm).
Defined.

Lemma gps_status_reports_write_witness :
  gps_returns_status (Gps_set_position 1%float 2%float 90%float) = true /\
  PROS_SUCCESS <> PROS_ERR /\
  (exists r w',
     gps_run (Gps_set_position 1%float 2%float 90%float) 1 Sim.w0 = Some (VInt r, w') /\
     (r = PROS_SUCCESS <-> calls w' <> calls Sim.w0) /\
     (r = PROS_ERR <-> w' = Sim.w0)) /\
  (exists r w',
     gps_run (Gps_set_position 1%float 2%float 90%float) 3 Sim.w0 = Some (VInt r, w') /\
     (r = PROS_SUCCESS <-> calls w' <> calls Sim.w0) /\
     (r = PROS_ERR <-> w' = Sim.w0)).
Proof.
  assert (Hne : @PROS_SUCCESS Sim.consts <> @PROS_ERR Sim.consts)
    by (intros Heq; discriminate Heq).
  split; [reflexivity|]. split; [exact Hne|]. split.
  - exact (gps_status_reports_write (Gps_set_position 1%float 2%float 90%float) 1 Sim.w0 eq_refl Hne).
  - exact (gps_status_reports_write (Gps_set_position 1%float 2%float 90%float) 3 Sim.w0 eq_refl Hne).
Defined.

Lemma gps_orientation_scalars_agree_bulk_witness :
  gps_claim 1 Sim.w0 = Guard.ClaimOk (mkDevice 0 20 100 true) /\
  fst (vexDeviceGpsAttitudeGet 100 false
         (snd (vexDeviceGpsAttitudeGet 100 false (vex Sim.w0)))) =
    fst (vexDeviceGpsAttitudeGet 100 false (vex Sim.w0)) /\
  exists o w1,
    gps_get_orientation 1 Sim.w0 = Some (o, w1) /\
    fst <$> gps_get_pitch 1 w1 = Some (orientation_pitch o) /\
    fst <$> gps_get_roll 1 w1 = Some (orientation_roll o) /\
    fst <$> gps_get_yaw 1 w1 = Some (orientation_yaw o).
Proof.
  assert (Hc : gps_claim 1 Sim.w0 = Guard.ClaimOk (mkDevice 0 20 100 true)) by reflexivity.
  split; [exact Hc|]. split; [reflexivity|].
  exact (gps_orientation_scalars_agree_bulk 1 Sim.w0 _ Hc eq_refl).
Defined.

Lemma gps_gyro_scalars_agree_bulk_witness :
  gps_claim 1 Sim.w0 = Guard.ClaimOk (mkDevice 0 20 100 true) /\
  fst (vexDeviceGpsRawGyroGet 100 (snd (vexDeviceGpsRawGyroGet 100 (vex Sim.w0)))) =
    fst (vexDeviceGpsRawGyroGet 100 (vex Sim.w0)) /\
  exists g w1,
    gps_get_gyro_rate 1 Sim.w0 = Some (g, w1) /\
    fst <$> gps_get_gyro_rate_x 1 w1 = Some (gyro_x g) /\
    fst <$> gps_get_gyro_rate_y 1 w1 = Some (gyro_y g) /\
    fst <$> gps_get_gyro_rate_z 1 w1 = Some (gyro_z g).
Proof.
  assert (Hc : gps_claim 1 Sim.w0 = Guard.ClaimOk (mkDevice 0 20 100 true)) by reflexivity.
  split; [exact Hc|]. split; [reflexivity|].
  exact (gps_gyro_scalars_agree_bulk 1 Sim.w0 _ Hc eq_refl).
Defined.

Lemma gps_accel_scalars_agree_bulk_witness :
  gps_claim 1 Sim.w0 = Guard.ClaimOk (mkDevice 0 20 100 true) /\
  fst (vexDeviceGpsRawAccelGet 100 (snd (vexDeviceGpsRawAccelGet 100 (vex Sim.w0)))) =
    fst (vexDeviceGpsRawAccelGet 100 (vex Sim.w0)) /\
  exists a w1,
    gps_get_accel 1 Sim.w0 = Some (a, w1) /\
    fst <$> gps_get_accel_x 1 w1 = Some (accel_x a) /\
    fst <$> gps_get_accel_y 1 w1 = Some (accel_y a) /\
    fst <$> gps_get_accel_z 1 w1 = Some (accel_z a).
Proof.
  assert (Hc : gps_claim 1 Sim.w0 = Guard.ClaimOk (mkDevice 0 20 100 true)) by reflexivity.
  split; [exact Hc|]. split; [reflexivity|].
  exact (gps_accel_scalars_agree_bulk 1 Sim.w0 _ Hc eq_refl).
Defined.

Lemma gps_scalar_single_read_witness :
  gps_claim 1 Sim.w0 = Guard.ClaimOk (mkDevice 0 20 100 true) /\
  gps_get_error 1 Sim.w0 =
    Some (0.0625%float,
          {| registry := Sim.reg0; vex := Sim.dev0; calls := [CallErrorGet 100] |}) /\
  gps_get_heading 1 Sim.w0 =
    Some (90%float,
          {| registry := Sim.reg0; vex := Sim.dev0; calls := [CallDegreesGet 100] |}) /\
  gps_get_heading_raw 1 Sim.w0 =
    Some (270%float,
          {| registry := Sim.reg0; vex := Sim.dev0; calls := [CallHeadingGet 100] |}) /\
  gps_get_accel_z 1 Sim.w0 =
    Some (9%float,
          {| registry := Sim.reg0; vex := Sim.dev0; calls := [CallRawAccelGet 100] |}).
Proof.
  assert (Hc : gps_claim 1 Sim.w0 = Guard.ClaimOk (mkDevice 0 20 100 true)) by reflexivity.
  split; [exact Hc|].
  pose proof (gps_scalar_single_read 1 Sim.w0 _ Hc)
    as (Herr & _ & _ & _ & _ & _ & Hdeg & Hhdg & _ & _ & _ & _ & _ & Hacz).
  split; [exact Herr|]. split; [exact Hdeg|]. split; [exact Hhdg | exact Hacz].
Defined.

(** Five calls run as one task, on a free port, a claimed one and one out
    of range: the values come back in order. *)
Example sim_sequence :
  fst <$> gps_run_all [(Gps_set_offset 3%float (-1.5)%float, 1); (Gps_get_offset, 1);
                       (Gps_get_position, 3); (Gps_get_yaw, 1); (Gps_get_error, 0)]
            Sim.w0 =
  Some [VInt 1; VPosition {| position_s_x := 3; position_s_y := -1.5 |}%float;
        VPosition {| position_s_x := infinity; position_s_y := infinity |};
        VDouble 5%float; VDouble infinity].
Proof. vm_compute. reflexivity. Qed.
(** After those five calls port 1 is free as before and port 3 is still
    claimed by its other holder. *)
Example sim_sequence_flags :
  (fun w' => (Registry.is_claimed 0 (registry w'), Registry.is_claimed 2 (registry w'))) ∘ snd
    <$> gps_run_all [(Gps_set_offset 3%float (-1.5)%float, 1); (Gps_get_offset, 1);
                     (Gps_get_position, 3); (Gps_get_yaw, 1); (Gps_get_error, 0)]
          Sim.w0 =
  Some (false, true).
Proof. vm_compute. reflexivity. Qed.
End MoreOnTheSimulatedDevice.

Section OnTheSilentDevice.
Local Existing Instance SimSilent.api.
Local Existing Instance Sim.consts.

Lemma gps_get_offset_unwritten_witness :
  gps_claim 1 Sim.w0 = Guard.ClaimOk (mkDevice 0 20 100 true) /\
  (forall x y, fst (vexDeviceGpsOriginGet 100 x y (vex Sim.w0)) = (x, y)) /\
  fst <$> gps_get_offset 1 Sim.w0 =
    Some {| position_s_x := infinity; position_s_y := infinity |}.
Proof.
  assert (Hc : gps_claim 1 Sim.w0 = Guard.ClaimOk (mkDevice 0 20 100 true)) by reflexivity.
  assert (Hs : forall x y, fst (vexDeviceGpsOriginGet 100 x y (vex Sim.w0)) = (x, y))
    by (intros x y; reflexivity).
  split; [exact Hc|]. split; [exact Hs|].
  exact (gps_get_offset_unwritten 1 Sim.w0 _ Hc Hs).
Defined.
End OnTheSilentDevice.
